(** * Subsidized residential development: fund accounting and allocation

    A shallow embedding of [subsidies.py] (bayarea_urbansim): the coffer, the
    tax collector [tax_buildings] and its step [property_taxes], the revenue
    posters [add_obag_funds] and [calculate_vmt_fees], and the subsidized
    developer allocator [run_subsidized_developer], together with the
    properties stated for them.  The feasibility adapter and the two program
    steps only reshape tables and pass an account and its settings to the
    allocator; they are not modelled.

    Modelling conventions.
    - A table cell is an [fval]: a rational, [+inf], [-inf] or [NaN].
      Arithmetic on finite values is exact (rounding, overflow and the sign
      of zero are not modelled); the non-finite values follow IEEE 754, since
      the source handles [np.inf] and [np.nan] explicitly.  Python's [True]
      is the number 1, and the keys of subaccounts and of fee categories are
      numbers, as the regional subaccount [1] of the source is.
    - A [DataFrame] is a list of column names and a list of rows; a row is an
      index label and an association list from column names to cells, a cell
      that is absent reading as [NaN] (pandas fills missing data with NaN).
    - The pandas expression strings of the settings are kept as syntax trees
      ([nexpr], [bexpr]); names are resolved against the columns of the frame
      before any row is evaluated, as [DataFrame.query] and [DataFrame.eval]
      do.
    - Exceptions are the [Err] results of [result]; code that mutates the
      ledger while it can still raise runs in the state and error monad [M],
      whose state survives an error.
    - The generic developer [utils.run_developer] is a parameter of the
      allocator: a function of a state of its own, the candidates and the
      year.  The frames it is called with are recorded in the state
      ([developer_calls]), so that the properties can speak of them.
    - Console output ([print]) is not modelled. *)

From Stdlib Require Import ZArith QArith Qround Qabs List String Bool Lia Lqa.
From Stdlib Require Import Permutation Sorted.
Import ListNotations.

Local Open Scope Q_scope.

(** ** Floating-point cells *)

Module Float.

Inductive fval : Type :=
| Fin (q : Q)
| PInf
| NInf
| NaN.

Definition Qltb (x y : Q) : bool := negb (Qle_bool y x).

Definition is_nan (x : fval) : bool :=
  match x with NaN => true | _ => false end.

Definition is_finite (x : fval) : bool :=
  match x with Fin _ => true | _ => false end.

(** [x < y]; false as soon as one side is NaN. *)
Definition flt (x y : fval) : bool :=
  match x, y with
  | Fin a, Fin b => Qltb a b
  | Fin _, PInf => true
  | NInf, Fin _ => true
  | NInf, PInf => true
  | _, _ => false
  end.

(** [x == y]; NaN is equal to nothing, itself included. *)
Definition feq (x y : fval) : bool :=
  match x, y with
  | Fin a, Fin b => Qeq_bool a b
  | PInf, PInf => true
  | NInf, NInf => true
  | _, _ => false
  end.

Definition fgt (x y : fval) : bool := flt y x.
Definition fle (x y : fval) : bool := flt x y || feq x y.
Definition fge (x y : fval) : bool := fle y x.
Definition fne (x y : fval) : bool := negb (feq x y).

Definition fneg (x : fval) : fval :=
  match x with
  | Fin a => Fin (- a)
  | PInf => NInf
  | NInf => PInf
  | NaN => NaN
  end.

Definition fadd (x y : fval) : fval :=
  match x, y with
  | NaN, _ | _, NaN => NaN
  | Fin a, Fin b => Fin (a + b)
  | PInf, NInf | NInf, PInf => NaN
  | PInf, _ | _, PInf => PInf
  | NInf, _ | _, NInf => NInf
  end.

(** The infinity of the sign of [a], NaN for zero: the product of an
    infinity and the finite [a]. *)
Definition inf_of_sign (a : Q) : fval :=
  if Qltb 0 a then PInf else if Qltb a 0 then NInf else NaN.

Definition fmul (x y : fval) : fval :=
  match x, y with
  | NaN, _ | _, NaN => NaN
  | Fin a, Fin b => Fin (a * b)
  | Fin a, PInf | PInf, Fin a => inf_of_sign a
  | Fin a, NInf | NInf, Fin a => fneg (inf_of_sign a)
  | PInf, PInf | NInf, NInf => PInf
  | PInf, NInf | NInf, PInf => NInf
  end.

(** Division; a zero divisor is [+0]. *)
Definition fdiv (x y : fval) : fval :=
  match x, y with
  | NaN, _ | _, NaN => NaN
  | Fin a, Fin b => if Qeq_bool b 0 then inf_of_sign a else Fin (a / b)
  | Fin _, _ => Fin 0
  | PInf, Fin b => if Qltb b 0 then NInf else PInf
  | NInf, Fin b => if Qltb b 0 then PInf else NInf
  | _, _ => NaN
  end.

(** [np.floor]. *)
Definition ffloor (x : fval) : fval :=
  match x with
  | Fin a => Fin (inject_Z (Qfloor a))
  | _ => x
  end.


(** Python's built-in [sum]: a left fold of float addition from 0. *)
Definition py_sum (l : list fval) : fval :=
  fold_left fadd l (Fin 0).

(** The sort order numpy uses in [searchsorted] and [sort]: [<] with NaN
    after every number. *)
Definition np_less (x y : fval) : bool :=
  flt x y || (is_nan y && negb (is_nan x)).


End Float.
Export Float.

(** ** Results, and the state and error monad *)

Inductive error : Type :=
| AttributeError (name : string)
| KeyError (name : string)
| UndefinedVariableError (name : string).

Inductive result (A : Type) : Type :=
| Ok (a : A)
| Err (e : error).

Arguments Ok {A} a.
Arguments Err {A} e.

(** A computation that reads and mutates a state [S] and may raise: the state
    reached when the exception is raised is kept, as a Python object keeps
    the mutations made before a [raise]. *)
Definition M (S A : Type) : Type := S -> result A * S.

Definition ret {S A : Type} (a : A) : M S A := fun s => (Ok a, s).

Definition raise {S A : Type} (e : error) : M S A := fun s => (Err e, s).

Definition bind {S A B : Type} (m : M S A) (k : A -> M S B) : M S B :=
  fun s =>
    match m s with
    | (Ok a, s') => k a s'
    | (Err e, s') => (Err e, s')
    end.

Definition lift {S A : Type} (r : result A) : M S A := fun s => (r, s).

Definition get {S : Type} : M S S := fun s => (Ok s, s).

Definition modify {S : Type} (f : S -> S) : M S unit := fun s => (Ok tt, f s).

Declare Scope monad_scope.
Delimit Scope monad_scope with monad.
Notation "x <- m ;; k" := (bind m (fun x => k))
  (at level 61, m at next level, right associativity) : monad_scope.
Notation "m ;;; k" := (bind m (fun _ => k))
  (at level 61, right associativity) : monad_scope.

(** [for x in xs: body x], stopping at the first exception. *)
Fixpoint for_each {S A : Type} (xs : list A) (body : A -> M S unit)
  : M S unit :=
  match xs with
  | [] => ret tt
  | x :: rest => bind (body x) (fun _ => for_each rest body)
  end.

(** ** Data frames *)

Module Frame.

Record Row : Type := mkRow {
  idx : Z;
  cells : list (string * fval)
}.

Record DataFrame : Type := mkFrame {
  columns : list string;
  rows : list Row
}.

(** A column taken out of a frame with its index labels. *)
Definition Series : Type := list (Z * fval).

Fixpoint lookup (c : string) (l : list (string * fval)) : option fval :=
  match l with
  | [] => None
  | (c', v) :: rest => if String.eqb c c' then Some v else lookup c rest
  end.

Definition cell (r : Row) (c : string) : fval :=
  match lookup c (cells r) with
  | Some v => v
  | None => NaN
  end.

Definition set_cell (c : string) (v : fval) (r : Row) : Row :=
  mkRow (idx r) ((c, v) :: cells r).

Definition has_column (df : DataFrame) (c : string) : bool :=
  existsb (String.eqb c) (columns df).

Definition len (df : DataFrame) : nat := List.length (rows df).

(** [df.c]: the attribute exists when the column does. *)
Definition attr (df : DataFrame) (c : string) : result Series :=
  if has_column df c
  then Ok (map (fun r => (idx r, cell r c)) (rows df))
  else Err (AttributeError c).

(** [df[c]]. *)
Definition getitem (df : DataFrame) (c : string) : result Series :=
  if has_column df c
  then Ok (map (fun r => (idx r, cell r c)) (rows df))
  else Err (KeyError c).

(** The value a series has at an index label, NaN where it has none: how an
    assigned series is aligned to the index of the frame. *)
Fixpoint series_at (s : Series) (i : Z) : fval :=
  match s with
  | [] => NaN
  | (j, v) :: rest => if Z.eqb i j then v else series_at rest i
  end.

(** [df[mask]] for a mask computed row by row. *)
Definition select (p : Row -> bool) (df : DataFrame) : DataFrame :=
  mkFrame (columns df) (filter p (rows df)).

(** [df[c] = values] for values computed row by row. *)
Definition assign (c : string) (f : Row -> fval) (df : DataFrame)
  : DataFrame :=
  mkFrame (if has_column df c then columns df else columns df ++ [c])
          (map (fun r => set_cell c (f r) r) (rows df)).

(** [df.replace([np.inf, -np.inf], np.nan)], on every column. *)
Definition inf_to_nan (v : fval) : fval :=
  match v with
  | PInf | NInf => NaN
  | _ => v
  end.

Definition replace_inf (df : DataFrame) : DataFrame :=
  mkFrame (columns df)
          (map (fun r => mkRow (idx r)
                           (map (fun cv => (fst cv, inf_to_nan (snd cv)))
                                (cells r)))
               (rows df)).

(** [df.iloc[:n]]. *)
Definition iloc_head (n : nat) (df : DataFrame) : DataFrame :=
  mkFrame (columns df) (firstn n (rows df)).

(** [pd.concat]: the rows one frame after the other, over the union of the
    columns. *)
Definition add_columns (cs new : list string) : list string :=
  fold_left (fun acc c => if existsb (String.eqb c) acc then acc
                          else acc ++ [c]) new cs.

Definition pd_concat (dfs : list DataFrame) : DataFrame :=
  mkFrame (fold_left (fun cs df => add_columns cs (columns df)) dfs [])
          (flat_map rows dfs).

(** *** Sorting

    [df.sort(columns=[c], ascending=False)]: the rows whose key is a number
    in descending order of the key, and the rows whose key is NaN last.
    The order in which numpy leaves rows of equal key is not specified; here
    they keep their former order. *)
Fixpoint insert_desc (c : string) (r : Row) (l : list Row) : list Row :=
  match l with
  | [] => [r]
  | r' :: rest =>
      if fge (cell r c) (cell r' c) then r :: l
      else r' :: insert_desc c r rest
  end.

Definition sort_rows_desc (c : string) (l : list Row) : list Row :=
  fold_right (insert_desc c) []
             (filter (fun r => negb (is_nan (cell r c))) l)
  ++ filter (fun r => is_nan (cell r c)) l.

Definition sort_desc (c : string) (df : DataFrame) : DataFrame :=
  mkFrame (columns df) (sort_rows_desc c (rows df)).

(** *** Series operations *)

(** [Series.cumsum()]: the running sum, a NaN entry staying NaN and adding
    nothing. *)
Fixpoint cumsum_from (acc : fval) (l : list fval) : list fval :=
  match l with
  | [] => []
  | x :: rest =>
      if is_nan x then NaN :: cumsum_from acc rest
      else fadd acc x :: cumsum_from (fadd acc x) rest
  end.

Definition cumsum (l : list fval) : list fval := cumsum_from (Fin 0) l.

(** [a.searchsorted(v)] with the default [side='left']: numpy's binary
    search, [lo] and [hi] closing in on the first position whose element is
    not less than [v].  The fuel bounds the number of halvings. *)
Fixpoint binsearch_left (fuel : nat) (a : list fval) (v : fval)
         (lo hi : nat) : option nat :=
  if Nat.ltb lo hi then
    match fuel with
    | O => None
    | S fuel' =>
        let mid := (lo + (hi - lo) / 2)%nat in
        if np_less (nth mid a NaN) v
        then binsearch_left fuel' a v (S mid) hi
        else binsearch_left fuel' a v lo mid
    end
  else Some lo.

Definition searchsorted (a : list fval) (v : fval) : nat :=
  match binsearch_left (List.length a) a v 0 (List.length a) with
  | Some i => i
  | None => 0%nat
  end.

(** [Series.sum()] and the sum of a group in [groupby(...).sum()]: NaN
    entries are skipped, and the sum of no number at all is NaN. *)
Definition nansum (l : list fval) : fval :=
  match filter (fun v => negb (is_nan v)) l with
  | [] => NaN
  | obs => fold_left fadd obs (Fin 0)
  end.

(** *** Grouping *)

(** The values of [l] without repetition, in order of first appearance. *)
Fixpoint unique_from (seen : list fval) (l : list fval) : list fval :=
  match l with
  | [] => []
  | x :: rest =>
      if existsb (feq x) seen then unique_from seen rest
      else x :: unique_from (x :: seen) rest
  end.

Definition unique (l : list fval) : list fval := unique_from [] l.

Fixpoint insert_asc (x : fval) (l : list fval) : list fval :=
  match l with
  | [] => [x]
  | y :: rest => if fle x y then x :: l else y :: insert_asc x rest
  end.

Definition sort_asc (l : list fval) : list fval :=
  fold_right insert_asc [] l.

(** The group labels of [values.groupby(keys)]: the distinct keys in
    ascending order; a NaN key labels no group. *)
Definition group_keys (keys : list fval) : list fval :=
  sort_asc (unique (filter (fun k => negb (is_nan k)) keys)).

(** [values.groupby(keys).sum()]; the two series come from one frame and are
    aligned row by row. *)
Definition groupby_sum (values keys : Series) : list (fval * fval) :=
  let kv := combine (map snd keys) (map snd values) in
  map (fun k => (k, nansum (map snd (filter (fun p => feq (fst p) k) kv))))
      (group_keys (map snd keys)).

End Frame.
Export Frame.

(** ** Expressions of [DataFrame.query] and [DataFrame.eval] *)

Module Expr.

Inductive nexpr : Type :=
| NCol (c : string)
| NConst (q : Q)
| NAdd (a b : nexpr)
| NSub (a b : nexpr)
| NMul (a b : nexpr)
| NDiv (a b : nexpr).

Inductive cmp : Type := CLt | CLe | CGt | CGe | CEq | CNe.

Inductive bexpr : Type :=
| BCmp (op : cmp) (a b : nexpr)
| BAnd (p q : bexpr)
| BOr (p q : bexpr)
| BNot (p : bexpr).

Fixpoint nnames (e : nexpr) : list string :=
  match e with
  | NCol c => [c]
  | NConst _ => []
  | NAdd a b | NSub a b | NMul a b | NDiv a b => nnames a ++ nnames b
  end.

Fixpoint bnames (e : bexpr) : list string :=
  match e with
  | BCmp _ a b => nnames a ++ nnames b
  | BAnd p q | BOr p q => bnames p ++ bnames q
  | BNot p => bnames p
  end.

(** Every name of the expression is looked up when the expression is parsed:
    the first one that is no column raises. *)
Fixpoint resolve (df : DataFrame) (names : list string) : result unit :=
  match names with
  | [] => Ok tt
  | n :: rest =>
      if has_column df n then resolve df rest
      else Err (UndefinedVariableError n)
  end.

Fixpoint neval (r : Row) (e : nexpr) : fval :=
  match e with
  | NCol c => cell r c
  | NConst q => Fin q
  | NAdd a b => fadd (neval r a) (neval r b)
  | NSub a b => fadd (neval r a) (fneg (neval r b))
  | NMul a b => fmul (neval r a) (neval r b)
  | NDiv a b => fdiv (neval r a) (neval r b)
  end.

Definition cmp_eval (op : cmp) (x y : fval) : bool :=
  match op with
  | CLt => flt x y
  | CLe => fle x y
  | CGt => fgt x y
  | CGe => fge x y
  | CEq => feq x y
  | CNe => fne x y
  end.

Fixpoint beval (r : Row) (e : bexpr) : bool :=
  match e with
  | BCmp op a b => cmp_eval op (neval r a) (neval r b)
  | BAnd p q => beval r p && beval r q
  | BOr p q => beval r p || beval r q
  | BNot p => negb (beval r p)
  end.

(** [df.query(e)]. *)
Definition query (df : DataFrame) (e : bexpr) : result DataFrame :=
  match resolve df (bnames e) with
  | Ok _ => Ok (select (fun r => beval r e) df)
  | Err err => Err err
  end.

(** [df.eval(e)]. *)
Definition eval (df : DataFrame) (e : nexpr) : result Series :=
  match resolve df (nnames e) with
  | Ok _ => Ok (map (fun r => (idx r, neval r e)) (rows df))
  | Err err => Err err
  end.

End Expr.
Export Expr.

Notation "'let?' x ':=' r 'in' k" :=
  (match r with Ok x => k | Err e => Err e end)
  (at level 10, x name, r at level 100, k at level 200).

(** ** The account ledger *)

Module Ledger.

Record Metadata : Type := mkMetadata {
  description : string;
  year : Z;
  residential_units : option fval;
  building_id : option Z
}.

Record Transaction : Type := mkTransaction {
  amount : fval;
  subaccount : fval;
  metadata : Metadata
}.

(** Modelled from the spec: the [Account] class (module [accounts] of
    urbansim) is not among the sources.  It is an append-only record of signed
    transactions, each against one subaccount; a subaccount exists from its
    first transaction; [iter_subaccounts] reports every subaccount once, in
    order of first transaction, with the total of its transactions.  Keys
    are compared with [==], so a NaN key equals none.  The subaccounts and
    their totals are read when the iteration starts; the loop of the
    allocator books only against the subaccount it is at, which leaves the
    totals of the subaccounts still to come as they were
    ([total_unchanged_by_other_subaccounts]). *)
Record Account : Type := mkAccount {
  name : string;
  transactions : list Transaction
}.

Definition add_transaction (amt subacct : fval) (md : Metadata)
           (acct : Account) : Account :=
  mkAccount (name acct)
            (transactions acct ++ [mkTransaction amt subacct md]).

Definition total_transactions (acct : Account) : fval :=
  py_sum (map amount (transactions acct)).

Definition total_transactions_by_subacct (acct : Account) (subacct : fval)
  : fval :=
  py_sum (map amount
              (filter (fun t => feq (subaccount t) subacct)
                      (transactions acct))).

Definition all_subaccounts (acct : Account) : list fval :=
  unique (map subaccount (transactions acct)).

Definition iter_subaccounts (acct : Account) : list (fval * fval) :=
  map (fun sa => (sa, total_transactions_by_subacct acct sa))
      (all_subaccounts acct).

End Ledger.
Export Ledger.

(** ** subsidies.py *)

Module Subsidies.

Local Open Scope string_scope.
Local Open Scope monad_scope.

Record Coffer : Type := mkCoffer {
  prop_tax_acct : Account;
  vmt_fee_acct : Account;
  obag_acct : Account
}.

Definition coffer : Coffer :=
  mkCoffer (mkAccount "prop_tax_act" [])
           (mkAccount "vmt_fee_acct" [])
           (mkAccount "obag_acct" []).

(** The settings of one subsidy program ([vmt_settings], [obag_settings]). *)
Module Program.
Record Settings : Type := mkSettings {
  sending_buildings_subaccount_def : nexpr;
  receiving_buildings_filter : option bexpr;
  fee_amounts : list (fval * fval);
  total_amount : Q
}.
End Program.

Record AcctSettings : Type := mkAcctSettings {
  sending_buildings_subaccount_def : string;
  sending_buildings_filter : bexpr;
  sending_buildings_tax : nexpr;
  vmt_settings : Program.Settings;
  obag_settings : Program.Settings
}.

(** Modelled from the spec: the summary object (class of the simulation's
    utilities) is not among the sources.  It accumulates the buildings built
    in [parcel_output]; [add_parcel_output] appends to it. *)
Record Summary : Type := mkSummary {
  parcel_output : DataFrame
}.

Definition add_parcel_output (new_buildings : DataFrame) (s : Summary)
  : Summary :=
  mkSummary (pd_concat [parcel_output s; new_buildings]).

Definition tax_buildings (buildings : DataFrame)
           (acct_settings : AcctSettings) (year : Z) : M Account unit :=
  buildings <- lift (query buildings
                           (sending_buildings_filter acct_settings)) ;;
  tax <- lift (eval buildings (sending_buildings_tax acct_settings)) ;;
  subaccounts <-
    lift (getitem buildings
                  (sending_buildings_subaccount_def acct_settings)) ;;
  let tot_tax_by_subaccount := groupby_sum tax subaccounts in
  for_each tot_tax_by_subaccount
    (fun sa_amt =>
       let metadata :=
         mkMetadata "Collecting property tax" year None None in
       modify (add_transaction (snd sa_amt) (fst sa_amt) metadata)).

Definition add_obag_funds (settings : AcctSettings) (year : Z)
           (years_per_iter : Z) : M Coffer unit :=
  let amt := Fin (Program.total_amount (obag_settings settings)) in
  let amt := fmul amt (Fin (inject_Z years_per_iter)) in
  let metadata := mkMetadata "OBAG regional subsidies" year None None in
  modify (fun coffer =>
            mkCoffer (prop_tax_acct coffer) (vmt_fee_acct coffer)
                     (add_transaction amt (Fin 1) metadata
                                      (obag_acct coffer))).

(** ["%d <= year_built < %d and subsidized != True" %
     (year, year + years_per_iter)] *)
Definition vmt_filter (year years_per_iter : Z) : bexpr :=
  BAnd (BAnd (BCmp CLe (NConst (inject_Z year)) (NCol "year_built"))
             (BCmp CLt (NCol "year_built")
                   (NConst (inject_Z (year + years_per_iter)))))
       (BCmp CNe (NCol "subsidized") (NConst 1)).

(** [Series.map(d)] for a dict [d]: NaN for a value that is no key. *)
Fixpoint map_dict (d : list (fval * fval)) (v : fval) : fval :=
  match d with
  | [] => NaN
  | (k, x) :: rest => if feq v k then x else map_dict rest v
  end.

Definition calculate_vmt_fees (settings : AcctSettings) (year : Z)
           (summary : Summary) (years_per_iter : Z) : M Coffer unit :=
  let vmt_settings := vmt_settings settings in
  let df := parcel_output summary in
  df <- lift (query df (vmt_filter year years_per_iter)) ;;
  if Nat.eqb (len df) 0 then ret tt
  else
    _ <- lift (attr df "vmt_res_cat") ;;
    let df :=
      assign "res_fees"
             (fun r => map_dict (Program.fee_amounts vmt_settings)
                                (cell r "vmt_res_cat")) df in
    _ <- lift (attr df "residential_units") ;;
    let total_vmt_fees :=
      nansum (map (fun r => fmul (cell r "res_fees")
                                 (cell r "residential_units"))
                  (rows df)) in
    let metadata := mkMetadata "VMT development fees" year None None in
    modify (fun coffer =>
              mkCoffer (prop_tax_acct coffer)
                       (add_transaction total_vmt_fees (Fin 1) metadata
                                        (vmt_fee_acct coffer))
                       (obag_acct coffer)).

(** [buildings] is the buildings table merged with the geography of the
    parcels ([orca.merge_tables]). *)
Definition property_taxes (buildings : DataFrame)
           (acct_settings : AcctSettings) (year : Z) : M Coffer unit :=
  fun coffer =>
    let (r, acct) := tax_buildings buildings acct_settings year
                                   (prop_tax_acct coffer) in
    (r, mkCoffer acct (vmt_fee_acct coffer) (obag_acct coffer)).

(** *** The subsidized developer *)

(** Steps 2 to 5 of [run_subsidized_developer] and the assignment of the
    subaccounts: the candidate table the loop over the subaccounts reads.
    [parcels] is the parcels table, of which [ave_sqft_per_unit] is taken and
    aligned on the index. *)
Definition candidates (feasibility parcels : DataFrame)
           (acct_settings : Program.Settings) : result DataFrame :=
  (* step 2 *)
  let feasibility := replace_inf feasibility in
  let? _ := attr feasibility "max_profit" in
  let feasibility :=
    select (fun r => flt (cell r "max_profit") (Fin 0)) feasibility in
  (* step 3 *)
  let? ave_sqft_per_unit := attr parcels "ave_sqft_per_unit" in
  let feasibility :=
    assign "ave_sqft_per_unit"
           (fun r => series_at ave_sqft_per_unit (idx r)) feasibility in
  let? _ := attr feasibility "residential_sqft" in
  let feasibility :=
    assign "residential_units"
           (fun r => ffloor (fdiv (cell r "residential_sqft")
                                  (cell r "ave_sqft_per_unit")))
           feasibility in
  (* step 3B *)
  let? _ := attr feasibility "total_residential_units" in
  let feasibility :=
    select (fun r => fgt (cell r "residential_units")
                         (cell r "total_residential_units"))
           feasibility in
  (* step 4 *)
  let feasibility :=
    assign "subsidy_per_unit"
           (fun r => fdiv (cell r "max_profit")
                          (cell r "residential_units"))
           feasibility in
  (* step 5 *)
  let? feasibility :=
    match Program.receiving_buildings_filter acct_settings with
    | Some f => query feasibility f
    | None => Ok feasibility
    end in
  let sending_bldgs :=
    Program.sending_buildings_subaccount_def acct_settings in
  let feasibility := assign "regional" (fun _ => Fin 1) feasibility in
  let? subaccount := eval feasibility sending_bldgs in
  Ok (assign "subaccount" (fun r => neval r sending_bldgs) feasibility).

(** The candidates of a subaccount as step 7 leaves them. *)
Definition sorted_candidates (feasibility : DataFrame) (subacct : fval)
  : DataFrame :=
  sort_desc "subsidy_per_unit"
            (select (fun r => feq (cell r "subaccount") subacct) feasibility).

(** The subsidy cost of each row, as step 8 sums it. *)
Definition subsidy_costs (df : DataFrame) : list fval :=
  map (fun r => fmul (Fin (-1)) (cell r "max_profit")) (rows df).

(** Steps 7 and 8 for one subaccount: the candidates handed to the developer,
    [None] where the loop goes on to the next subaccount. *)
Definition selection (feasibility : DataFrame) (subacct amount : fval)
  : option DataFrame :=
  let df :=
    select (fun r => feq (cell r "subaccount") subacct) feasibility in
  if Nat.eqb (len df) 0 then None
  else
    (* step 7 *)
    let df := sort_desc "subsidy_per_unit" df in
    (* step 8 *)
    let num_bldgs := searchsorted (cumsum (subsidy_costs df)) amount in
    if Nat.eqb num_bldgs 0 then None
    else Some (iloc_head num_bldgs df).

(** The feasibility table as the developer receives it: the columns under
    the form they belong to. *)
Record FormFrame : Type := mkFormFrame {
  form : string;
  table : DataFrame
}.

Section Developer.

(** What the developer reads and writes besides its arguments: the buildings
    and households tables, its settings, its random choices. *)
Context {World : Type}.

(** [utils.run_developer], of urbansim_defaults: from the candidates and the
    year, the buildings built, or [None]. *)
Definition Developer : Type :=
  World -> FormFrame -> Z -> World * option DataFrame.

Record Sim : Type := mkSim {
  account : Account;
  world : World;
  summary : Summary;
  developer_calls : list FormFrame
}.

Definition run_developer (rd : Developer) (form : string)
           (feasibility : DataFrame) (year : Z) : M Sim (option DataFrame) :=
  fun s =>
    let call := mkFormFrame form feasibility in
    let (w, new_buildings) := rd (world s) call year in
    (Ok new_buildings,
     mkSim (account s) w (summary s) (developer_calls s ++ [call])).

(** [new_building.c] for a row of [new_buildings.iterrows()]. *)
Definition row_attr (df : DataFrame) (r : Row) (c : string) : result fval :=
  if has_column df c then Ok (cell r c) else Err (AttributeError c).

(** Step 10. *)
Definition book_buildings (new_buildings : DataFrame) (subacct : fval)
           (year : Z) : M Sim unit :=
  for_each (rows new_buildings)
    (fun new_building =>
       amt <- lift (row_attr new_buildings new_building "max_profit") ;;
       units <- lift (row_attr new_buildings new_building
                               "residential_units") ;;
       let metadata :=
         mkMetadata "Developing subsidized building" year
                    (Some units) (Some (idx new_building)) in
       modify (fun s =>
                 mkSim (add_transaction amt subacct metadata (account s))
                       (world s) (summary s) (developer_calls s))).

(** Step 6: the loop over the subaccounts, with the list of the frames of
    new buildings it accumulates. *)
Fixpoint subaccount_loop (rd : Developer) (feasibility : DataFrame)
         (year : Z) (subaccounts : list (fval * fval))
         (new_buildings_list : list DataFrame) : M Sim (list DataFrame) :=
  match subaccounts with
  | [] => ret new_buildings_list
  | (subacct, amount) :: rest =>
      match selection feasibility subacct amount with
      | None => subaccount_loop rd feasibility year rest new_buildings_list
      | Some df =>
          (* step 9 *)
          new_buildings <- run_developer rd "residential" df year ;;
          match new_buildings with
          | None =>
              subaccount_loop rd feasibility year rest new_buildings_list
          | Some new_buildings =>
              book_buildings new_buildings subacct year ;;;
              subaccount_loop rd feasibility year rest
                              (new_buildings_list ++ [new_buildings])
          end
      end
  end.

Definition run_subsidized_developer (feasibility parcels : DataFrame)
           (acct_settings : Program.Settings) (year : Z) (rd : Developer)
  : M Sim unit :=
  feasibility <- lift (candidates feasibility parcels acct_settings) ;;
  s <- get ;;
  new_buildings_list <-
    subaccount_loop rd feasibility year (iter_subaccounts (account s)) [] ;;
  let total_len :=
    fold_left (fun x y => (x + len y)%nat) new_buildings_list 0%nat in
  if Nat.eqb total_len 0 then ret tt
  else
    let new_buildings := pd_concat new_buildings_list in
    let new_buildings :=
      assign "subsidized" (fun _ => Fin 1) new_buildings in
    modify (fun s =>
              mkSim (account s) (world s)
                    (add_parcel_output new_buildings (summary s))
                    (developer_calls s)).

End Developer.

Arguments Sim World : clear implicits.
Arguments Developer World : clear implicits.

End Subsidies.
Export Subsidies.

(** * Vocabulary of the properties *)

Local Open Scope string_scope.
Local Open Scope list_scope.

(** ** What a call does *)

(** The calls of the developer made, and the transactions booked, between
    the states [s] and [s']. *)
Definition calls_of_run {World : Type} (s s' : Sim World) : list FormFrame :=
  skipn (List.length (developer_calls s)) (developer_calls s').

Definition booked_in_run {World : Type} (s s' : Sim World)
  : list Transaction :=
  skipn (List.length (transactions (account s))) (transactions (account s')).

(** The transactions a call of [tax_buildings] appends to the ledger. *)
Definition posted_by_tax (buildings : DataFrame) (st : AcctSettings)
           (year : Z) (account : Account) : list Transaction :=
  skipn (List.length (transactions account))
        (transactions (snd (tax_buildings buildings st year account))).

(** The transactions of [txs] that are against the subaccount [subacct],
    and the sum of the magnitudes of transactions. *)
Definition booked_to (subacct : fval) (txs : list Transaction)
  : list Transaction :=
  filter (fun t => feq (subaccount t) subacct) txs.



(** The developer builds some of the candidates it is handed, each at most
    once: the profits of the new buildings are those of distinct rows of the
    frame of the call. *)
Definition builds_from_candidates {World : Type} (rd : Developer World)
  : Prop :=
  forall w call year w' new_buildings,
    rd w call year = (w', Some new_buildings) ->
    exists picked rest,
      Permutation (picked ++ rest) (rows (table call))
      /\ map (fun r => cell r "max_profit") (rows new_buildings)
         = map (fun r => cell r "max_profit") picked.

(** ** Rows of the candidate table *)

(** The row of the candidate table made from the feasibility row [r0]:
    the columns [candidates] assigns, in its order. *)
Definition candidate_row (ave : Series) (sending_bldgs : nexpr) (r0 : Row)
  : Row :=
  let r1 := mkRow (idx r0)
                  (map (fun cv => (fst cv, inf_to_nan (snd cv))) (cells r0)) in
  let r2 := set_cell "ave_sqft_per_unit" (series_at ave (idx r1)) r1 in
  let r3 := set_cell "residential_units"
                     (ffloor (fdiv (cell r2 "residential_sqft")
                                   (cell r2 "ave_sqft_per_unit"))) r2 in
  let r4 := set_cell "subsidy_per_unit"
                     (fdiv (cell r3 "max_profit")
                           (cell r3 "residential_units")) r3 in
  let r5 := set_cell "regional" (Fin 1) r4 in
  set_cell "subaccount" (neval r5 sending_bldgs) r5.

(** A row whose [max_profit] is a negative number. *)
Definition priced (r : Row) : Prop :=
  exists q, cell r "max_profit" = Fin q /\ q < 0.

(** The subsidy cost of a row, as step 8 computes it, and the magnitude of
    its profit. *)
Definition row_cost (r : Row) : Q :=
  match cell r "max_profit" with
  | Fin q => (-1) * q
  | _ => 0
  end.


(** [r] comes no later than [r'] in descending order of the column [c]. *)
Definition desc_by (c : string) (r r' : Row) : Prop :=
  fge (cell r c) (cell r' c) = true.

(** ** The loop over the subaccounts, as a relation *)

(** The transaction step 10 books for a new building. *)
Definition booking (year : Z) (subacct : fval) (new_building : Row)
  : Transaction :=
  mkTransaction
    (cell new_building "max_profit") subacct
    (mkMetadata "Developing subsidized building" year
                (Some (cell new_building "residential_units"))
                (Some (idx new_building))).

(** [s'] is [s] with the transactions [booked] appended to the ledger and
    the frames [called] to the record of the calls of the developer. *)
Definition extends {World : Type} (s s' : Sim World)
           (booked : list Transaction) (called : list FormFrame) : Prop :=
  name (account s') = name (account s)
  /\ transactions (account s') = transactions (account s) ++ booked
  /\ summary s' = summary s
  /\ developer_calls s' = developer_calls s ++ called.

(** What the developer built from the candidates [df] of the subaccount
    [subacct], as transactions: nothing, or the bookings of the buildings of
    one of its answers to [df]. *)
Definition built_by {World : Type} (rd : Developer World) (year : Z)
           (df : DataFrame) (subacct : fval) (booked : list Transaction)
  : Prop :=
  booked = []
  \/ exists w w' new_buildings,
      rd w (mkFormFrame "residential" df) year = (w', Some new_buildings)
      /\ booked = map (booking year subacct) (rows new_buildings).

(** The effect of the loop on the ledger and on the record of the calls, by
    subaccount.  The flag tells whether the loop ran to its end. *)
Inductive loop_effect {World : Type} (rd : Developer World)
          (feasibility : DataFrame) (year : Z) :
  bool -> list (fval * fval) -> list Transaction -> list FormFrame -> Prop :=
| loop_done : loop_effect rd feasibility year true [] [] []
| loop_skip ok subacct amount rest b c :
    selection feasibility subacct amount = None ->
    loop_effect rd feasibility year ok rest b c ->
    loop_effect rd feasibility year ok ((subacct, amount) :: rest) b c
| loop_call ok subacct amount rest df booked b c :
    selection feasibility subacct amount = Some df ->
    built_by rd year df subacct booked ->
    loop_effect rd feasibility year ok rest b c ->
    loop_effect rd feasibility year ok ((subacct, amount) :: rest)
                (booked ++ b) (mkFormFrame "residential" df :: c)
| loop_raise subacct amount rest df :
    selection feasibility subacct amount = Some df ->
    loop_effect rd feasibility year false ((subacct, amount) :: rest) []
                [mkFormFrame "residential" df].

(** The frames the loop hands to the developer when it runs to its end: one
    for every subaccount with a selection, in the order of the subaccounts. *)
Definition selected_calls (feasibility : DataFrame)
           (subaccounts : list (fval * fval)) : list FormFrame :=
  flat_map (fun sa =>
              match selection feasibility (fst sa) (snd sa) with
              | Some df => [mkFormFrame "residential" df]
              | None => []
              end) subaccounts.

(** ** Sums, groups and cuts *)

Definition Qsum (l : list Q) : Q := fold_right Qplus 0 l.

(** The running sums of [l] from [acc]. *)
Fixpoint Qcumsum (acc : Q) (l : list Q) : list Q :=
  match l with
  | [] => []
  | x :: rest => (acc + x) :: Qcumsum (acc + x) rest
  end.



Definition distinct_keys (ks : list fval) : Prop :=
  ForallOrdPairs (fun a b => feq a b = false) ks.

(** [i] cuts [a] at [v]: the elements before position [i] are less than [v]
    and those from [i] on are not. *)
Definition cut_at (a : list fval) (v : fval) (i : nat) : Prop :=
  (i <= List.length a)%nat
  /\ (forall j, (j < i)%nat -> np_less (nth j a NaN) v = true)
  /\ (forall j, (i <= j < List.length a)%nat ->
                np_less (nth j a NaN) v = false).

(** The elements less than [v] come first: what an ascending array
    guarantees. *)
Definition less_first (a : list fval) (v : fval) : Prop :=
  forall i j, (i <= j < List.length a)%nat ->
              np_less (nth j a NaN) v = true ->
              np_less (nth i a NaN) v = true.

(** ** A district, its proposals and its buildings *)

Module Example.

Definition proposal (i : Z) (max_profit residential_sqft units zone : fval)
  : Row :=
  mkRow i [("max_profit", max_profit);
           ("residential_sqft", residential_sqft);
           ("total_residential_units", units);
           ("zone", zone)].

Definition feasibility : DataFrame :=
  mkFrame ["max_profit"; "residential_sqft"; "total_residential_units";
           "zone"]
          [proposal 1 (Fin (-500000)) (Fin 10000) (Fin 2) (Fin 1);
           proposal 2 (Fin (-200000)) (Fin 10500) (Fin 0) (Fin 1);
           proposal 3 (Fin (-900000)) (Fin 10000) (Fin 0) (Fin 1);
           proposal 4 (Fin 50) (Fin 10000) (Fin 0) (Fin 1);
           proposal 5 NInf (Fin 10000) (Fin 0) (Fin 1);
           proposal 6 (Fin (-100)) (Fin 10000) (Fin 0) (Fin 2);
           proposal 7 (Fin (-100)) (Fin 900) (Fin 0) (Fin 1)].

Definition parcels : DataFrame :=
  mkFrame ["ave_sqft_per_unit"]
          (map (fun i => mkRow i [("ave_sqft_per_unit", Fin 1000)])
               [1; 2; 3; 4; 5; 6; 7]%Z).

Definition program : Program.Settings :=
  Program.mkSettings (NCol "zone") None [(Fin 1, Fin 100)] 1000000.

Definition funds (amount : Q) : Account :=
  mkAccount "obag_acct"
            [mkTransaction (Fin amount) (Fin 1)
                           (mkMetadata "OBAG regional subsidies" 2015
                                       None None)].

Definition build_all : Developer unit :=
  fun w call _ => (w, Some (table call)).

Definition build_none : Developer unit :=
  fun w _ _ => (w, None).

Definition start (acct : Account) : Sim unit :=
  mkSim acct tt (mkSummary (mkFrame [] [])) [].

Definition candidate_table : DataFrame :=
  match candidates feasibility parcels program with
  | Ok df => df
  | Err _ => mkFrame [] []
  end.

Definition selected : DataFrame :=
  match selection candidate_table (Fin 1) (Fin 1000000) with
  | Some df => df
  | None => mkFrame [] []
  end.

Definition no_row : Row := mkRow 0 [].

(** Buildings to tax: the third has no zone, the fourth no unit. *)
Definition building (i : Z) (units zone : fval) : Row :=
  mkRow i [("residential_units", units); ("zone", zone)].

Definition buildings : DataFrame :=
  mkFrame ["residential_units"; "zone"]
          [building 1 (Fin 10) (Fin 1);
           building 2 (Fin 20) (Fin 2);
           building 3 (Fin 5) NaN;
           building 4 (Fin 0) (Fin 1)].

Definition zoned_buildings : DataFrame :=
  mkFrame ["residential_units"; "zone"]
          [building 1 (Fin 10) (Fin 1);
           building 2 (Fin 20) (Fin 2);
           building 4 (Fin 0) (Fin 1)].

Definition tax_settings (filter : bexpr) : AcctSettings :=
  mkAcctSettings "zone" filter
                 (NMul (NCol "residential_units") (NConst 100))
                 program program.

Definition has_units : bexpr :=
  BCmp CGt (NCol "residential_units") (NConst 0).

Definition in_district : bexpr :=
  BCmp CEq (NCol "tpp_id") (NConst 1).

Definition taxed (b : DataFrame) : DataFrame :=
  match query b has_units with
  | Ok df => df
  | Err _ => mkFrame [] []
  end.

Definition prop_tax : Account := mkAccount "prop_tax_act" [].

(** A parcel output whose buildings are from before the window, or
    subsidized. *)
Definition built (i : Z) (year_built subsidized : fval) : Row :=
  mkRow i [("year_built", year_built); ("subsidized", subsidized);
           ("vmt_res_cat", Fin 1); ("residential_units", Fin 10)].

Definition old_output : Summary :=
  mkSummary
    (mkFrame ["year_built"; "subsidized"; "vmt_res_cat"; "residential_units"]
             [built 1 (Fin 2010) NaN; built 2 (Fin 2016) (Fin 1)]).

End Example.

(** ** Further vocabulary *)

(** The fee a building owes: the fee of its category times its units. *)
Definition fee_due (fees : list (fval * fval)) (r : Row) : fval :=
  fmul (map_dict fees (cell r "vmt_res_cat")) (cell r "residential_units").

(** The buildings of the parcel output that [calculate_vmt_fees] charges. *)
Definition fee_base (year years_per_iter : Z) (s : Summary) : list Row :=
  filter (fun r => beval r (vmt_filter year years_per_iter))
         (rows (parcel_output s)).

(** [x] comes no later than [y] in ascending order. *)
Definition asc (x y : fval) : Prop := fle x y = true.

(** The developer built nothing: no frame, or a frame without rows. *)
Definition builds_nothing {World : Type} (rd : Developer World) : Prop :=
  forall w call year,
    match snd (rd w call year) with
    | Some new_buildings => rows new_buildings = []
    | None => True
    end.

(** A transaction that books an expenditure of the year [y] on a subsidized
    building. *)
Definition expenditure (y : Z) (t : Transaction) : Prop :=
  (exists q, amount t = Fin q /\ q < 0)
  /\ description (metadata t) = "Developing subsidized building"
  /\ Ledger.year (metadata t) = y
  /\ building_id (metadata t) <> None.

(** ** More of the district *)

Module Scenario.

(** A program of the region: one subaccount for all candidates. *)
Definition regional_program : Program.Settings :=
  Program.mkSettings (NCol "regional") None [(Fin 1, Fin 100)] 1000000.

(** A program that receives in zone 1 only, and one whose filter names a
    field no table has. *)
Definition in_zone_1 : bexpr := BCmp CEq (NCol "zone") (NConst 1).

Definition zoned_program : Program.Settings :=
  Program.mkSettings (NCol "zone") (Some in_zone_1) [(Fin 1, Fin 100)]
                     1000000.

Definition district_program : Program.Settings :=
  Program.mkSettings (NCol "zone") (Some Example.in_district)
                     [(Fin 1, Fin 100)] 1000000.

Definition zoned_candidate_table : DataFrame :=
  match candidates Example.feasibility Example.parcels zoned_program with
  | Ok df => df
  | Err _ => mkFrame [] []
  end.

Definition zoned_selected : DataFrame :=
  match selection zoned_candidate_table (Fin 1) (Fin 1000000) with
  | Some df => df
  | None => mkFrame [] []
  end.

Definition regional_candidate_table : DataFrame :=
  match candidates Example.feasibility Example.parcels regional_program with
  | Ok df => df
  | Err _ => mkFrame [] []
  end.

(** Tax settings whose subaccounts are defined by a column the buildings do
    not have. *)
Definition district_settings : AcctSettings :=
  mkAcctSettings "tpp_id" Example.has_units
                 (NMul (NCol "residential_units") (NConst 100))
                 Example.program Example.program.

Definition vacant_buildings : DataFrame :=
  mkFrame ["residential_units"; "zone"]
          [Example.building 1 (Fin 0) (Fin 1);
           Example.building 2 (Fin 0) (Fin 2)].

(** A parcel output with two buildings of the window 2015-2019 that are not
    subsidized, the second in a category without fee, and a subsidized
    one. *)
Definition completed (i : Z) (year_built subsidized category units : fval)
  : Row :=
  mkRow i [("year_built", year_built); ("subsidized", subsidized);
           ("vmt_res_cat", category); ("residential_units", units)].

Definition new_output : Summary :=
  mkSummary
    (mkFrame ["year_built"; "subsidized"; "vmt_res_cat"; "residential_units"]
             [completed 1 (Fin 2015) NaN (Fin 1) (Fin 10);
              completed 2 (Fin 2016) NaN (Fin 7) (Fin 20);
              completed 3 (Fin 2016) (Fin 1) (Fin 1) (Fin 30)]).

(** Feasibility tables without a proposal that loses money, and without the
    column of the profit. *)
Definition profitable_feasibility : DataFrame :=
  mkFrame ["max_profit"; "residential_sqft"; "total_residential_units";
           "zone"]
          [Example.proposal 1 (Fin 50) (Fin 10000) (Fin 0) (Fin 1);
           Example.proposal 2 (Fin 0) (Fin 10000) (Fin 0) (Fin 1);
           Example.proposal 3 PInf (Fin 10000) (Fin 0) (Fin 1)].

Definition bare_feasibility : DataFrame :=
  mkFrame ["residential_sqft"]
          [mkRow 1 [("residential_sqft", Fin 10000)]].

Definition no_funds : Account := mkAccount "obag_acct" [].

(** A state whose parcel output has the columns the fee reads. *)
Definition funded_with_output : Sim unit :=
  mkSim (Example.funds 1000000) tt new_output [].

Definition no_transaction : Transaction :=
  mkTransaction NaN NaN (mkMetadata "" 0 None None).

End Scenario.

(** * Properties *)

(** ** Comparisons and arithmetic of cells *)

Lemma Qltb_lt (x y : Q) : Qltb x y = true <-> x < y.
Proof.
  unfold Qltb. rewrite negb_true_iff.
  split; intro H.
  - apply Qnot_le_lt. intro Hle. apply Qle_bool_iff in Hle. congruence.
  - destruct (Qle_bool y x) eqn:E; [|reflexivity].
    apply Qle_bool_iff in E. exfalso. apply (Qlt_not_le _ _ H E).
Qed.

Lemma Qltb_ge (x y : Q) : Qltb x y = false <-> y <= x.
Proof.
  unfold Qltb. rewrite negb_false_iff. apply Qle_bool_iff.
Qed.

Lemma flt_Fin (a b : Q) : flt (Fin a) (Fin b) = true <-> a < b.
Proof. apply Qltb_lt. Qed.

Lemma feq_Fin (a b : Q) : feq (Fin a) (Fin b) = true <-> a == b.
Proof. apply Qeq_bool_iff. Qed.

Lemma fle_Fin (a b : Q) : fle (Fin a) (Fin b) = true <-> a <= b.
Proof.
  unfold fle. rewrite orb_true_iff, flt_Fin, feq_Fin.
  split; [intros [H|H]; lra | intro H].
  destruct (Qlt_le_dec a b); [left; assumption | right; lra].
Qed.

Lemma flt_not_nan_l (x y : fval) : flt x y = true -> x <> NaN.
Proof. destruct x; simpl; congruence. Qed.

Lemma flt_not_nan_r (x y : fval) : flt x y = true -> y <> NaN.
Proof. destruct x, y; simpl; congruence. Qed.

Lemma feq_sym (x y : fval) : feq x y = feq y x.
Proof.
  destruct x, y; simpl; try reflexivity.
  destruct (Qeq_bool q q0) eqn:E1, (Qeq_bool q0 q) eqn:E2; try reflexivity.
  - apply Qeq_bool_iff in E1. symmetry in E1. apply Qeq_bool_iff in E1.
    congruence.
  - apply Qeq_bool_iff in E2. symmetry in E2. apply Qeq_bool_iff in E2.
    congruence.
Qed.


Lemma feq_nan_r (x : fval) : feq x NaN = false.
Proof. destruct x; reflexivity. Qed.

Lemma feq_refl (x : fval) : x <> NaN -> feq x x = true.
Proof.
  destruct x; simpl; try congruence. intros _. apply Qeq_bool_iff. reflexivity.
Qed.

(** ** The candidate table *)

Lemma lookup_inf_to_nan (c : string) (l : list (string * fval)) :
  lookup c (map (fun cv => (fst cv, inf_to_nan (snd cv))) l)
  = option_map inf_to_nan (lookup c l).
Proof.
  induction l as [|[c' v] l IH]; simpl; [reflexivity|].
  destruct (String.eqb c c'); [reflexivity | exact IH].
Qed.

Lemma cell_replace_inf (r0 : Row) (c : string) :
  cell (mkRow (idx r0)
              (map (fun cv => (fst cv, inf_to_nan (snd cv))) (cells r0))) c
  = inf_to_nan (cell r0 c).
Proof.
  unfold cell. simpl. rewrite lookup_inf_to_nan.
  destruct (lookup c (cells r0)); reflexivity.
Qed.

Lemma query_rows (df df' : DataFrame) (e : bexpr) :
  query df e = Ok df' -> rows df' = filter (fun r => beval r e) (rows df).
Proof.
  unfold query. destruct (resolve df (bnames e)); [|discriminate].
  intros [= <-]. reflexivity.
Qed.

(** Every row of the candidate table is the [candidate_row] of a feasibility
    row whose profit is negative once the infinities are gone, and whose
    implied unit count exceeds the units of the parcel. *)
Lemma candidates_rows (feasibility parcels df : DataFrame)
      (st : Program.Settings) (r : Row) :
  candidates feasibility parcels st = Ok df ->
  In r (rows df) ->
  exists ave r0,
    attr parcels "ave_sqft_per_unit" = Ok ave
    /\ In r0 (rows feasibility)
    /\ r = candidate_row ave (Program.sending_buildings_subaccount_def st) r0
    /\ flt (inf_to_nan (cell r0 "max_profit")) (Fin 0) = true
    /\ fgt (cell r "residential_units") (cell r "total_residential_units")
       = true.
Proof.
  unfold candidates.
  destruct (attr (replace_inf feasibility) "max_profit"); [|discriminate].
  destruct (attr parcels "ave_sqft_per_unit") as [ave|]; [|discriminate].
  match goal with |- context [attr ?d "residential_sqft"] =>
    destruct (attr d "residential_sqft") end; [|discriminate].
  match goal with |- context [attr ?d "total_residential_units"] =>
    destruct (attr d "total_residential_units") end; [|discriminate].
  match goal with |- context [assign "subsidy_per_unit" ?f ?d] =>
    set (f4 := assign "subsidy_per_unit" f d) end.
  intros H Hin.
  assert (Hsub : exists f5, rows df
                 = map (fun r => set_cell "subaccount"
                          (neval r (Program.sending_buildings_subaccount_def st)) r)
                       (map (fun r => set_cell "regional" (Fin 1) r) (rows f5))
                 /\ incl (rows f5) (rows f4)).
  { destruct (Program.receiving_buildings_filter st) as [flt0|].
    - destruct (query f4 flt0) as [f5|] eqn:Hq; [|discriminate].
      apply query_rows in Hq.
      destruct (eval _ _); [|discriminate]. injection H as <-.
      exists f5. split; [reflexivity|].
      rewrite Hq. intros x Hx. apply filter_In in Hx. tauto.
    - destruct (eval _ _); [|discriminate]. injection H as <-.
      exists f4. split; [reflexivity|]. apply incl_refl. }
  destruct Hsub as (f5 & Hrows & Hincl).
  rewrite Hrows in Hin.
  apply in_map_iff in Hin. destruct Hin as (r5 & <- & Hin).
  apply in_map_iff in Hin. destruct Hin as (r4 & <- & Hin).
  apply Hincl in Hin. subst f4. simpl in Hin.
  apply in_map_iff in Hin. destruct Hin as (r3 & <- & Hin).
  apply filter_In in Hin. destruct Hin as [Hin Hgt].
  apply in_map_iff in Hin. destruct Hin as (r2 & <- & Hin).
  apply in_map_iff in Hin. destruct Hin as (r1 & <- & Hin).
  apply filter_In in Hin. destruct Hin as [Hin Hlt].
  apply in_map_iff in Hin. destruct Hin as (r0 & <- & Hin).
  exists ave, r0. split; [reflexivity|]. split; [exact Hin|].
  split; [reflexivity|]. split.
  - rewrite cell_replace_inf in Hlt. exact Hlt.
  - exact Hgt.
Qed.

(** ** Sorting and selection *)

Lemma insert_desc_perm (c : string) (r : Row) (l : list Row) :
  Permutation (insert_desc c r l) (r :: l).
Proof.
  induction l as [|r' l IH]; simpl; [apply Permutation_refl|].
  destruct (fge (cell r c) (cell r' c)); [apply Permutation_refl|].
  apply perm_trans with (r' :: r :: l); [|apply perm_swap].
  apply perm_skip. exact IH.
Qed.

Lemma insertion_desc_perm (c : string) (l : list Row) :
  Permutation (fold_right (insert_desc c) [] l) l.
Proof.
  induction l as [|r l IH]; simpl; [apply perm_nil|].
  apply perm_trans with (r :: fold_right (insert_desc c) [] l).
  - apply insert_desc_perm.
  - apply perm_skip. exact IH.
Qed.

Lemma filter_partition_perm {A : Type} (p : A -> bool) (l : list A) :
  Permutation (filter (fun x => negb (p x)) l ++ filter p l) l.
Proof.
  induction l as [|x l IH]; simpl; [apply perm_nil|].
  destruct (p x); simpl.
  - apply Permutation_sym, Permutation_cons_app, Permutation_sym, IH.
  - apply perm_skip, IH.
Qed.

(** Sorting loses no row and invents none. *)
Lemma sort_rows_desc_perm (c : string) (l : list Row) :
  Permutation (sort_rows_desc c l) l.
Proof.
  unfold sort_rows_desc.
  apply perm_trans
    with (filter (fun r => negb (is_nan (cell r c))) l
          ++ filter (fun r => is_nan (cell r c)) l).
  - apply Permutation_app_tail, insertion_desc_perm.
  - apply (filter_partition_perm (fun r => is_nan (cell r c))).
Qed.

Lemma firstn_incl {A : Type} (n : nat) (l : list A) : incl (firstn n l) l.
Proof.
  intros x Hx. rewrite <- (firstn_skipn n l). apply in_or_app. now left.
Qed.

(** The rows handed to the developer for a subaccount are candidate rows of
    that subaccount. *)
Lemma selection_rows (feasibility df : DataFrame) (subacct amount : fval)
      (r : Row) :
  selection feasibility subacct amount = Some df ->
  In r (rows df) ->
  In r (rows feasibility) /\ feq (cell r "subaccount") subacct = true.
Proof.
  unfold selection.
  destruct (Nat.eqb _ 0); [discriminate|].
  destruct (Nat.eqb _ 0); [discriminate|].
  intros [= <-] Hin. simpl in Hin.
  apply firstn_incl in Hin.
  apply (Permutation_in _ (sort_rows_desc_perm _ _)) in Hin.
  apply filter_In in Hin. exact Hin.
Qed.

(** ** The loop over the subaccounts *)

Section Loop.

Context {World : Type}.
Variable rd : Developer World.
Variable feasibility : DataFrame.
Variable year : Z.

Lemma extends_refl (s : Sim World) : extends s s [] [].
Proof. unfold extends. rewrite !app_nil_r. auto. Qed.

Lemma extends_trans (s1 s2 s3 : Sim World) b1 b2 c1 c2 :
  extends s1 s2 b1 c1 -> extends s2 s3 b2 c2 ->
  extends s1 s3 (b1 ++ b2) (c1 ++ c2).
Proof.
  unfold extends. intros (Hn1 & Ht1 & Hs1 & Hc1) (Hn2 & Ht2 & Hs2 & Hc2).
  rewrite Hn2, Hn1, Ht2, Ht1, Hs2, Hs1, Hc2, Hc1, !app_assoc. auto.
Qed.

Lemma book_rows_extends (new_buildings : DataFrame) (subacct : fval) :
  has_column new_buildings "max_profit" = true ->
  has_column new_buildings "residential_units" = true ->
  forall (l : list Row) (s : Sim World),
    let body := fun new_building : Row =>
      (amt <- lift (row_attr new_buildings new_building "max_profit") ;;
       units <- lift (row_attr new_buildings new_building
                               "residential_units") ;;
       modify (fun s : Sim World =>
                 mkSim (add_transaction amt subacct
                          (mkMetadata "Developing subsidized building" year
                                      (Some units) (Some (idx new_building)))
                          (account s))
                       (world s) (summary s) (developer_calls s)))%monad in
    fst (for_each l body s) = Ok tt
    /\ extends s (snd (for_each l body s)) (map (booking year subacct) l) []
    /\ world (snd (for_each l body s)) = world s.
Proof.
  intros Hmp Hru l. induction l as [|r l IH]; intros s body.
  - split; [reflexivity|]. split; [apply extends_refl | reflexivity].
  - set (s1 := mkSim (add_transaction (cell r "max_profit") subacct
                        (mkMetadata "Developing subsidized building" year
                                    (Some (cell r "residential_units"))
                                    (Some (idx r)))
                        (account s))
                     (world s) (summary s) (developer_calls s)).
    assert (Hstep : for_each (r :: l) body s = for_each l body s1).
    { simpl. unfold body at 1. unfold bind, lift, row_attr, modify.
      rewrite Hmp, Hru. reflexivity. }
    rewrite Hstep. destruct (IH s1) as (IH0 & IH1 & IH2).
    fold body in IH0, IH1, IH2.
    split; [exact IH0|]. split; [|exact IH2].
    assert (H1 : extends s s1 [booking year subacct r] []).
    { unfold extends, s1. simpl. rewrite app_nil_r. auto. }
    exact (extends_trans _ _ _ _ _ _ _ H1 IH1).
Qed.

(** Step 10 books every new building, or, when the frame of new buildings
    lacks a column it reads, raises before it has booked any. *)
Lemma book_buildings_extends (new_buildings : DataFrame) (subacct : fval)
      (s : Sim World) :
  world (snd (book_buildings new_buildings subacct year s)) = world s
  /\ ((fst (book_buildings new_buildings subacct year s) = Ok tt
       /\ extends s (snd (book_buildings new_buildings subacct year s))
                  (map (booking year subacct) (rows new_buildings)) [])
      \/ ((exists e, fst (book_buildings new_buildings subacct year s)
                     = Err e)
          /\ extends s (snd (book_buildings new_buildings subacct year s))
                     [] [])).
Proof.
  destruct (has_column new_buildings "max_profit") eqn:Hmp;
    [destruct (has_column new_buildings "residential_units") eqn:Hru|].
  - destruct (book_rows_extends new_buildings subacct Hmp Hru
                                (rows new_buildings) s) as (H0 & H1 & H2).
    split; [exact H2|]. left. split; [exact H0 | exact H1].
  - unfold book_buildings.
    destruct (rows new_buildings) as [|r l]; simpl.
    + split; [reflexivity|]. left. split; [reflexivity|apply extends_refl].
    + unfold bind, lift, row_attr; rewrite Hmp, Hru; simpl.
      split; [reflexivity|]. right.
      split; [eexists; reflexivity | apply extends_refl].
  - unfold book_buildings.
    destruct (rows new_buildings) as [|r l]; simpl.
    + split; [reflexivity|]. left. split; [reflexivity|apply extends_refl].
    + unfold bind, lift, row_attr; rewrite Hmp; simpl.
      split; [reflexivity|]. right.
      split; [eexists; reflexivity | apply extends_refl].
Qed.

Lemma subaccount_loop_effect (subaccounts : list (fval * fval)) :
  forall (new_buildings_list : list DataFrame) (s : Sim World),
  exists ok b c,
    extends s (snd (subaccount_loop rd feasibility year subaccounts
                                    new_buildings_list s)) b c
    /\ loop_effect rd feasibility year ok subaccounts b c
    /\ (ok = true <->
        exists l, fst (subaccount_loop rd feasibility year subaccounts
                                       new_buildings_list s) = Ok l).
Proof.
  induction subaccounts as [|[subacct amount] rest IH]; intros nbl s.
  - exists true, [], []. simpl. split; [apply extends_refl|].
    split; [constructor|]. split; [eauto | reflexivity].
  - destruct (selection feasibility subacct amount) as [df|] eqn:Hsel.
    + destruct (rd (world s) (mkFormFrame "residential" df) year)
        as [w [nb|]] eqn:Hrd;
        set (s1 := mkSim (account s) w (summary s)
                         (developer_calls s
                          ++ [mkFormFrame "residential" df]));
        assert (Hs1 : extends s s1 [] [mkFormFrame "residential" df])
          by (unfold extends, s1; simpl; rewrite app_nil_r; auto).
      * assert (Hstep :
          subaccount_loop rd feasibility year ((subacct, amount) :: rest)
                          nbl s
          = match book_buildings nb subacct year s1 with
            | (Ok _, s2) =>
                subaccount_loop rd feasibility year rest (nbl ++ [nb]) s2
            | (Err e, s2) => (Err e, s2)
            end).
        { cbn [subaccount_loop]. rewrite Hsel.
          unfold bind, run_developer. rewrite Hrd. reflexivity. }
        rewrite Hstep.
        destruct (book_buildings_extends nb subacct s1)
          as [_ [[Hok Hext] | [[e He] Hext]]];
          destruct (book_buildings nb subacct year s1) as [r s2];
          simpl in Hext; simpl in *; subst r.
        -- destruct (IH (nbl ++ [nb]) s2) as (ok & b & c & H1 & H2 & H3).
           exists ok, (map (booking year subacct) (rows nb) ++ b),
             (mkFormFrame "residential" df :: c).
           split; [|split; [|exact H3]].
           ++ pose proof (extends_trans _ _ _ _ _ _ _ Hs1 Hext) as H12.
              exact (extends_trans _ _ _ _ _ _ _ H12 H1).
           ++ apply loop_call; [exact Hsel| |exact H2].
              right. exists (world s), w, nb. split; [exact Hrd|reflexivity].
        -- exists false, [], [mkFormFrame "residential" df].
           split; [|split].
           ++ exact (extends_trans _ _ _ _ _ _ _ Hs1 Hext).
           ++ apply loop_raise. exact Hsel.
           ++ split; [discriminate | intros [l Hl]; discriminate].
      * assert (Hstep :
          subaccount_loop rd feasibility year ((subacct, amount) :: rest)
                          nbl s
          = subaccount_loop rd feasibility year rest nbl s1).
        { cbn [subaccount_loop]. rewrite Hsel.
          unfold bind, run_developer. rewrite Hrd. reflexivity. }
        rewrite Hstep.
        destruct (IH nbl s1) as (ok & b & c & H1 & H2 & H3).
        exists ok, ([] ++ b), (mkFormFrame "residential" df :: c).
        split; [|split; [|exact H3]].
        -- exact (extends_trans _ _ _ _ _ _ _ Hs1 H1).
        -- apply loop_call; [exact Hsel|now left|exact H2].
    + cbn [subaccount_loop]. rewrite Hsel.
      destruct (IH nbl s) as (ok & b & c & H1 & H2 & H3).
      exists ok, b, c. split; [exact H1|]. split; [|exact H3].
      apply loop_skip; assumption.
Qed.

End Loop.

(** ** One call of the allocator *)

Lemma skipn_length_app {A : Type} (l c : list A) :
  skipn (List.length l) (l ++ c) = c.
Proof. induction l as [|x l IH]; simpl; [reflexivity | exact IH]. Qed.

Lemma loop_effect_calls {World : Type} (rd : Developer World)
      (feasibility : DataFrame) (year : Z) ok subaccounts b c :
  loop_effect rd feasibility year ok subaccounts b c ->
  Forall (fun call =>
            form call = "residential"
            /\ exists subacct amount,
                In (subacct, amount) subaccounts
                /\ selection feasibility subacct amount = Some (table call))
         c.
Proof.
  induction 1 as [|ok sa amt rest b c Hsel _ IH
                  |ok sa amt rest df booked b c Hsel Hb _ IH
                  |sa amt rest df Hsel].
  - constructor.
  - eapply Forall_impl; [|exact IH].
    intros call (Hf & sa' & amt' & Hin & Hs). split; [exact Hf|].
    exists sa', amt'. split; [now right | exact Hs].
  - constructor.
    + split; [reflexivity|]. exists sa, amt. split; [now left | exact Hsel].
    + eapply Forall_impl; [|exact IH].
      intros call (Hf & sa' & amt' & Hin & Hs). split; [exact Hf|].
      exists sa', amt'. split; [now right | exact Hs].
  - constructor; [|constructor].
    split; [reflexivity|]. exists sa, amt. split; [now left | exact Hsel].
Qed.

Lemma loop_effect_booked {World : Type} (rd : Developer World)
      (feasibility : DataFrame) (year : Z) ok subaccounts b c :
  loop_effect rd feasibility year ok subaccounts b c ->
  Forall (fun t => exists amount, In (subaccount t, amount) subaccounts) b.
Proof.
  induction 1 as [|ok sa amt rest b c Hsel _ IH
                  |ok sa amt rest df booked b c Hsel Hb _ IH
                  |sa amt rest df Hsel].
  - constructor.
  - eapply Forall_impl; [|exact IH].
    intros t [amt' Hin]. exists amt'. now right.
  - apply Forall_app. split.
    + destruct Hb as [-> | (w & w' & nb & _ & ->)]; [constructor|].
      apply Forall_forall. intros t Ht. apply in_map_iff in Ht.
      destruct Ht as (r & <- & _). exists amt. now left.
    + eapply Forall_impl; [|exact IH].
      intros t [amt' Hin]. exists amt'. now right.
  - constructor.
Qed.

(** What a call of [run_subsidized_developer] does to the ledger and to the
    record of the calls of the developer: nothing when the candidate table
    cannot be computed, and else the effect of the loop over the subaccounts
    the ledger reports when the call starts. *)
Lemma run_subsidized_developer_effect {World : Type}
      (feasibility parcels : DataFrame) (st : Program.Settings) (year : Z)
      (rd : Developer World) (s : Sim World) :
  let res := run_subsidized_developer feasibility parcels st year rd s in
  match candidates feasibility parcels st with
  | Err e => res = (Err e, s)
  | Ok cand =>
      exists ok b c,
        transactions (account (snd res)) = transactions (account s) ++ b
        /\ developer_calls (snd res) = developer_calls s ++ c
        /\ loop_effect rd cand year ok (iter_subaccounts (account s)) b c
        /\ (ok = true <-> fst res = Ok tt)
  end.
Proof.
  intro res. subst res. unfold run_subsidized_developer.
  destruct (candidates feasibility parcels st) as [cand|e]; [|reflexivity].
  unfold bind, lift, get.
  destruct (subaccount_loop_effect rd cand year
              (iter_subaccounts (account s)) [] s)
    as (ok & b & c & (_ & Ht & _ & Hc) & Heff & Hok).
  exists ok, b, c.
  destruct (subaccount_loop rd cand year (iter_subaccounts (account s)) [] s)
    as [[nbl|e] s1]; simpl in Ht, Hc, Hok.
  - destruct (Nat.eqb _ 0); unfold ret, modify; simpl.
    + split; [exact Ht|]. split; [exact Hc|]. split; [exact Heff|].
      split; [reflexivity|]. intros _. apply Hok. eauto.
    + split; [exact Ht|]. split; [exact Hc|]. split; [exact Heff|].
      split; [reflexivity|]. intros _. apply Hok. eauto.
  - simpl. split; [exact Ht|]. split; [exact Hc|]. split; [exact Heff|].
    split; [intro H; apply Hok in H; destruct H; discriminate
           | discriminate].
Qed.

Lemma candidate_row_cells (ave : Series) (e : nexpr) (r0 : Row) :
  let r := candidate_row ave e r0 in
  idx r = idx r0
  /\ cell r "max_profit" = inf_to_nan (cell r0 "max_profit")
  /\ cell r "residential_sqft" = inf_to_nan (cell r0 "residential_sqft")
  /\ cell r "ave_sqft_per_unit" = series_at ave (idx r0)
  /\ cell r "residential_units"
     = ffloor (fdiv (cell r "residential_sqft") (cell r "ave_sqft_per_unit"))
  /\ cell r "subsidy_per_unit"
     = fdiv (cell r "max_profit") (cell r "residential_units").
Proof.
  intro r.
  split; [reflexivity|].
  split; [exact (cell_replace_inf r0 "max_profit")|].
  split; [exact (cell_replace_inf r0 "residential_sqft")|].
  split; [reflexivity|].
  split; reflexivity.
Qed.

Lemma negative_is_finite (v : fval) :
  flt (inf_to_nan v) (Fin 0) = true -> exists q, v = Fin q /\ q < 0.
Proof.
  destruct v as [q| | |]; simpl; try discriminate.
  intro H. exists q. split; [reflexivity | apply Qltb_lt; exact H].
Qed.

Lemma skipn_length_self {A : Type} (l : list A) :
  skipn (List.length l) l = [].
Proof. induction l as [|x l IH]; simpl; [reflexivity | exact IH]. Qed.

(** Every row handed to the developer during a call is a row of the
    candidate table, in a frame selected for a subaccount the ledger reported
    when the call started, and belongs to that subaccount. *)
Lemma called_rows {World : Type} (feasibility parcels : DataFrame)
      (st : Program.Settings) (year : Z) (rd : Developer World)
      (s : Sim World) (call : FormFrame) (r : Row) :
  In call (calls_of_run
             s (snd (run_subsidized_developer feasibility parcels st year
                                              rd s))) ->
  In r (rows (table call)) ->
  exists cand subacct amount,
    candidates feasibility parcels st = Ok cand
    /\ In (subacct, amount) (iter_subaccounts (account s))
    /\ selection cand subacct amount = Some (table call)
    /\ In r (rows cand)
    /\ feq (cell r "subaccount") subacct = true.
Proof.
  intros Hcall Hr.
  pose proof (run_subsidized_developer_effect feasibility parcels st year
                                              rd s) as H.
  cbv zeta in H.
  destruct (candidates feasibility parcels st) as [cand|e].
  - destruct H as (ok & b & c & _ & Hc & Heff & _).
    unfold calls_of_run in Hcall. rewrite Hc, skipn_length_app in Hcall.
    apply loop_effect_calls in Heff.
    rewrite Forall_forall in Heff.
    destruct (Heff call Hcall) as (_ & sa & amt & Hin & Hsel).
    destruct (selection_rows cand (table call) sa amt r Hsel Hr) as [H1 H2].
    exists cand, sa, amt. auto.
  - rewrite H in Hcall. simpl in Hcall. unfold calls_of_run in Hcall.
    rewrite skipn_length_self in Hcall. destruct Hcall.
Qed.

(** C4: every candidate row handed to the developer-construction routine
    comes from a feasibility row whose [max_profit] is a finite number (not
    NaN, not an infinity) and strictly negative, and its implied residential
    unit count is strictly greater than the unit count of the existing
    building; a row with non-negative profit is never handed over. *)
Theorem C4_built_candidates_lose_money_and_add_units :
  forall (World : Type) (feasibility parcels : DataFrame)
         (st : Program.Settings) (year : Z) (rd : Developer World)
         (s : Sim World) (call : FormFrame) (r : Row),
    In call (calls_of_run
               s (snd (run_subsidized_developer feasibility parcels st year
                                                rd s))) ->
    In r (rows (table call)) ->
    exists r0 q,
      In r0 (rows feasibility)
      /\ idx r0 = idx r
      /\ cell r0 "max_profit" = Fin q
      /\ cell r "max_profit" = Fin q
      /\ q < 0
      /\ flt (cell r "total_residential_units") (cell r "residential_units")
         = true.
Proof.
  intros World feasibility parcels st year rd s call r Hcall Hr.
  destruct (called_rows feasibility parcels st year rd s call r Hcall Hr)
    as (cand & sa & amt & Hcand & _ & _ & Hin & _).
  destruct (candidates_rows feasibility parcels cand st r Hcand Hin)
    as (ave & r0 & _ & Hr0 & -> & Hneg & Hgt).
  destruct (negative_is_finite _ Hneg) as (q & Hq & Hlt).
  destruct (candidate_row_cells
              ave (Program.sending_buildings_subaccount_def st) r0)
    as (Hidx & Hmp & _).
  exists r0, q. split; [exact Hr0|]. split; [symmetry; exact Hidx|].
  split; [exact Hq|]. split; [rewrite Hmp, Hq; reflexivity|].
  split; [exact Hlt | exact Hgt].
Qed.



(** C10: a candidate whose subaccount value matches no subaccount reported
    by the ledger when the call starts is in no frame handed to the
    developer, and no transaction booked during the call is against its
    subaccount value. *)
Theorem C10_unreported_subaccount_never_funded :
  forall (World : Type) (feasibility parcels cand : DataFrame)
         (st : Program.Settings) (year : Z) (rd : Developer World)
         (s : Sim World) (r : Row),
    candidates feasibility parcels st = Ok cand ->
    In r (rows cand) ->
    (forall subacct amount,
        In (subacct, amount) (iter_subaccounts (account s)) ->
        feq (cell r "subaccount") subacct = false) ->
    let s' := snd (run_subsidized_developer feasibility parcels st year
                                            rd s) in
    (forall call, In call (calls_of_run s s') ->
                  ~ In r (rows (table call)))
    /\ (forall t, In t (booked_in_run s s') ->
                  feq (cell r "subaccount") (subaccount t) = false).
Proof.
  intros World feasibility parcels cand st year rd s r Hcand Hin Hno s'.
  split.
  - intros call Hcall Hr.
    destruct (called_rows feasibility parcels st year rd s call r Hcall Hr)
      as (cand' & sa & amt & _ & Hsa & _ & _ & Hfeq).
    rewrite (Hno sa amt Hsa) in Hfeq. discriminate.
  - intros t Ht. subst s'.
    pose proof (run_subsidized_developer_effect feasibility parcels st year
                                                rd s) as H.
    cbv zeta in H. rewrite Hcand in H.
    destruct H as (ok & b & c & Hb & _ & Heff & _).
    unfold booked_in_run in Ht. rewrite Hb, skipn_length_app in Ht.
    apply loop_effect_booked in Heff. rewrite Forall_forall in Heff.
    destruct (Heff t Ht) as [amt Hamt].
    exact (Hno _ _ Hamt).
Qed.

(** ** The order of the candidates *)

Lemma selection_prefix (feasibility df : DataFrame) (subacct amount : fval) :
  selection feasibility subacct amount = Some df ->
  let sorted := sorted_candidates feasibility subacct in
  let n := searchsorted (cumsum (subsidy_costs sorted)) amount in
  rows df = firstn n (rows sorted) /\ n <> 0%nat.
Proof.
  unfold selection. fold (sorted_candidates feasibility subacct).
  destruct (Nat.eqb _ 0); [discriminate|].
  destruct (Nat.eqb _ 0) eqn:E; [discriminate|].
  intros [= <-]. split; [reflexivity|].
  apply Nat.eqb_neq. exact E.
Qed.

Lemma fge_total (x y : fval) :
  x <> NaN -> y <> NaN -> fge x y = false -> fge y x = true.
Proof.
  unfold fge, fle.
  destruct x as [a| | |], y as [b| | |]; simpl; try congruence.
  intros _ _ H. apply orb_false_iff in H. destruct H as [H1 H2].
  apply Qltb_ge in H1. apply orb_true_iff. left. apply Qltb_lt.
  destruct (Qeq_bool b a) eqn:E; [discriminate|].
  apply Qeq_bool_neq in E. lra.
Qed.

Lemma fge_trans (x y z : fval) :
  fge x y = true -> fge y z = true -> fge x z = true.
Proof.
  unfold fge.
  destruct x as [a| | |], y as [b| | |], z as [c| | |];
    try (unfold fle; simpl; intros; congruence).
  rewrite !fle_Fin. lra.
Qed.

Lemma insert_desc_sorted (c : string) (r : Row) (l : list Row) :
  cell r c <> NaN ->
  Forall (fun r' => cell r' c <> NaN) l ->
  StronglySorted (desc_by c) l ->
  StronglySorted (desc_by c) (insert_desc c r l).
Proof.
  intros Hr Hl Hs. induction Hs as [|r' l Hs IH Hall]; simpl.
  - constructor; constructor.
  - inversion Hl as [|? ? Hr' Hl']; subst.
    destruct (fge (cell r c) (cell r' c)) eqn:E.
    + constructor; [constructor; assumption|].
      constructor; [exact E|].
      eapply Forall_impl; [|exact Hall].
      intros x Hx. unfold desc_by in *. eapply fge_trans; eassumption.
    + constructor; [apply IH; assumption|].
      apply (Permutation_Forall (Permutation_sym (insert_desc_perm c r l))).
      constructor; [|exact Hall].
      apply fge_total; assumption.
Qed.

Lemma filter_nan_keys (c : string) (l : list Row) :
  Forall (fun r => cell r c <> NaN) l ->
  filter (fun r => is_nan (cell r c)) l = []
  /\ filter (fun r => negb (is_nan (cell r c))) l = l.
Proof.
  induction 1 as [|r l Hr _ [IH1 IH2]]; simpl; [split; reflexivity|].
  destruct (cell r c) eqn:E; simpl;
    try (rewrite IH2; split; [exact IH1 | reflexivity]).
  exfalso. apply Hr. reflexivity.
Qed.

Lemma sort_rows_desc_sorted (c : string) (l : list Row) :
  Forall (fun r => cell r c <> NaN) l ->
  StronglySorted (desc_by c) (sort_rows_desc c l).
Proof.
  intro Hl. unfold sort_rows_desc.
  destruct (filter_nan_keys c l Hl) as [Hnan Hnum].
  rewrite Hnan, Hnum, app_nil_r. clear Hnan Hnum.
  induction Hl as [|r l Hr Hl IH]; simpl; [constructor|].
  apply insert_desc_sorted; [exact Hr| |exact IH].
  apply (Permutation_Forall (Permutation_sym (insertion_desc_perm c l))).
  exact Hl.
Qed.

Lemma strongly_sorted_pair {A : Type} (R : A -> A -> Prop)
      (l1 l2 l3 : list A) (x y : A) :
  StronglySorted R (l1 ++ x :: l2 ++ y :: l3) -> R x y.
Proof.
  induction l1 as [|z l1 IH]; simpl; intro H.
  - apply StronglySorted_inv in H. destruct H as [_ H].
    rewrite Forall_forall in H. apply H.
    apply in_or_app. right. now left.
  - apply StronglySorted_inv in H. apply IH. tauto.
Qed.

(** The subsidy per unit of a candidate is never NaN. *)
Lemma candidate_subsidy_per_unit (feasibility parcels cand : DataFrame)
      (st : Program.Settings) (r : Row) :
  candidates feasibility parcels st = Ok cand ->
  In r (rows cand) ->
  cell r "subsidy_per_unit" <> NaN.
Proof.
  intros Hcand Hin.
  destruct (candidates_rows feasibility parcels cand st r Hcand Hin)
    as (ave & r0 & _ & _ & -> & Hneg & Hgt).
  destruct (candidate_row_cells
              ave (Program.sending_buildings_subaccount_def st) r0)
    as (_ & Hmp & _ & _ & _ & Hspu).
  destruct (negative_is_finite _ Hneg) as (q & Hq & Hlt).
  rewrite Hspu, Hmp, Hq. simpl.
  unfold fgt in Hgt. apply flt_not_nan_r in Hgt.
  destruct (cell _ "residential_units") as [u| | |];
    try discriminate; try congruence.
  simpl. destruct (Qeq_bool u 0); [|discriminate].
  unfold inf_of_sign.
  assert (H1 : Qltb 0 q = false) by (apply Qltb_ge; lra).
  assert (H2 : Qltb q 0 = true) by (apply Qltb_lt; exact Hlt).
  rewrite H1, H2. discriminate.
Qed.

(** C3: within a subaccount the candidates are put in descending order of
    subsidy per unit (the least negative first) before the cut: of two
    candidates, the one that comes first has a subsidy per unit greater than
    or equal to that of the other. *)
Theorem C3_candidates_sorted_least_negative_first :
  forall (feasibility parcels cand : DataFrame) (st : Program.Settings)
         (subacct : fval) (l1 l2 l3 : list Row) (ri rj : Row),
    candidates feasibility parcels st = Ok cand ->
    rows (sorted_candidates cand subacct) = l1 ++ ri :: l2 ++ rj :: l3 ->
    fge (cell ri "subsidy_per_unit") (cell rj "subsidy_per_unit") = true.
Proof.
  intros feasibility parcels cand st subacct l1 l2 l3 ri rj Hcand Hrows.
  apply (strongly_sorted_pair (desc_by "subsidy_per_unit") l1 l2 l3).
  rewrite <- Hrows. unfold sorted_candidates, sort_desc, select. simpl.
  apply sort_rows_desc_sorted. apply Forall_forall.
  intros r Hr. apply filter_In in Hr. destruct Hr as [Hr _].
  exact (candidate_subsidy_per_unit feasibility parcels cand st r Hcand Hr).
Qed.

(** ** The tax collector and the fee poster *)

Lemma resolve_missing (df : DataFrame) (names : list string) (n : string) :
  In n names ->
  has_column df n = false ->
  exists n', has_column df n' = false
             /\ resolve df names = Err (UndefinedVariableError n').
Proof.
  induction names as [|m names IH]; simpl; [tauto|].
  intros Hin Hn. destruct (has_column df m) eqn:Hm.
  - destruct Hin as [-> | Hin]; [congruence|]. apply IH; assumption.
  - exists m. split; [exact Hm | reflexivity].
Qed.

Lemma query_columns (df df' : DataFrame) (e : bexpr) :
  query df e = Ok df' -> columns df' = columns df.
Proof.
  unfold query. destruct (resolve df (bnames e)); [|discriminate].
  intros [= <-]. reflexivity.
Qed.

Lemma query_err (df : DataFrame) (e : bexpr) (err : error) :
  query df e = Err err ->
  exists n, has_column df n = false /\ err = UndefinedVariableError n.
Proof.
  unfold query. generalize (bnames e). intro names.
  induction names as [|m names IH]; simpl; [discriminate|].
  destruct (has_column df m) eqn:Hm; [exact IH|].
  intros [= <-]. exists m. split; [exact Hm | reflexivity].
Qed.

(** C6: when the filter or the tax expression of the settings names a field
    the buildings table does not have, [tax_buildings] raises (the name
    is undefined) and posts nothing: the ledger is as it was. *)
Theorem C6_missing_field_aborts_tax_collection :
  forall (buildings : DataFrame) (acct_settings : AcctSettings) (year : Z)
         (account : Account) (field : string),
    In field (bnames (sending_buildings_filter acct_settings))
    \/ In field (nnames (sending_buildings_tax acct_settings)) ->
    has_column buildings field = false ->
    exists n,
      has_column buildings n = false
      /\ tax_buildings buildings acct_settings year account
         = (Err (UndefinedVariableError n), account).
Proof.
  intros buildings st year account field Hin Hmiss.
  unfold tax_buildings, bind, lift.
  destruct (query buildings (sending_buildings_filter st)) as [b1|err] eqn:Hq.
  - assert (Hcols : forall n, has_column b1 n = has_column buildings n).
    { intro n. unfold has_column. rewrite (query_columns _ _ _ Hq).
      reflexivity. }
    destruct Hin as [Hin | Hin].
    + unfold query in Hq.
      destruct (resolve_missing buildings _ field Hin Hmiss) as (n & _ & Hr).
      rewrite Hr in Hq. discriminate.
    + rewrite <- Hcols in Hmiss.
      destruct (resolve_missing b1 _ field Hin Hmiss) as (n & Hn & Hr).
      unfold eval. rewrite Hr. exists n. rewrite <- Hcols.
      split; [exact Hn | reflexivity].
  - destruct (query_err _ _ _ Hq) as (n & Hn & ->).
    exists n. split; [exact Hn | reflexivity].
Qed.

Lemma filter_none {A : Type} (p : A -> bool) (l : list A) :
  (forall x, In x l -> p x = false) -> filter p l = [].
Proof.
  induction l as [|x l IH]; simpl; intro H; [reflexivity|].
  rewrite (H x (or_introl eq_refl)). apply IH.
  intros y Hy. apply H. now right.
Qed.

(** C7: when no building of the parcel output passes the filter of
    [calculate_vmt_fees] (built in the window of the iteration and not
    subsidized), the call leaves the coffer as it was: no transaction is
    posted, not even one of amount zero; and the call returns normally
    whenever the two columns of the filter exist. *)
Theorem C7_no_qualifying_building_posts_nothing :
  forall (settings : AcctSettings) (year : Z) (summary : Summary)
         (years_per_iter : Z) (coffer : Coffer),
    (forall r, In r (rows (parcel_output summary)) ->
               beval r (vmt_filter year years_per_iter) = false) ->
    snd (calculate_vmt_fees settings year summary years_per_iter coffer)
    = coffer
    /\ (has_column (parcel_output summary) "year_built" = true ->
        has_column (parcel_output summary) "subsidized" = true ->
        calculate_vmt_fees settings year summary years_per_iter coffer
        = (Ok tt, coffer)).
Proof.
  intros settings year summary ypi coffer Hnone.
  unfold calculate_vmt_fees, bind, lift.
  destruct (query (parcel_output summary) (vmt_filter year ypi))
    as [df|err] eqn:Hq.
  - assert (Hlen : len df = 0%nat).
    { unfold len. rewrite (query_rows _ _ _ Hq).
      rewrite (filter_none _ _ Hnone). reflexivity. }
    rewrite Hlen. simpl. split; reflexivity.
  - split; [reflexivity|]. intros H1 H2.
    unfold query in Hq. simpl in Hq. rewrite H1, H2 in Hq. discriminate.
Qed.

(** ** Sums *)


Lemma fold_left_fadd_Fin (l : list Q) (a : Q) :
  fold_left fadd (map Fin l) (Fin a) = Fin (fold_left Qplus l a).
Proof.
  revert a. induction l as [|x l IH]; intro a; simpl; [reflexivity|].
  apply IH.
Qed.



Lemma finite_values (l : list fval) :
  Forall (fun v => is_finite v = true) l -> exists qs, l = map Fin qs.
Proof.
  induction 1 as [|v l Hv _ [qs ->]]; [exists []; reflexivity|].
  destruct v as [q| | |]; try discriminate.
  exists (q :: qs). reflexivity.
Qed.

(** ** Grouping *)



Lemma unique_from_distinct (l seen : list fval) :
  distinct_keys (unique_from seen l)
  /\ Forall (fun y => existsb (feq y) seen = false) (unique_from seen l).
Proof.
  revert seen. induction l as [|x l IH]; intro seen; simpl.
  - split; constructor.
  - destruct (existsb (feq x) seen) eqn:E; [apply IH|].
    destruct (IH (x :: seen)) as [IH1 IH2].
    split.
    + constructor; [|exact IH1].
      eapply Forall_impl; [|exact IH2].
      intros y Hy. simpl in Hy. apply orb_false_iff in Hy.
      rewrite feq_sym. tauto.
    + constructor; [exact E|].
      eapply Forall_impl; [|exact IH2].
      intros y Hy. simpl in Hy. apply orb_false_iff in Hy. tauto.
Qed.

Lemma unique_distinct (l : list fval) : distinct_keys (unique l).
Proof. apply unique_from_distinct. Qed.

Lemma unique_from_incl (l seen : list fval) : incl (unique_from seen l) l.
Proof.
  revert seen. induction l as [|x l IH]; intro seen; simpl.
  - apply incl_refl.
  - destruct (existsb (feq x) seen).
    + apply incl_tl, IH.
    + apply incl_cons; [now left | apply incl_tl, IH].
Qed.

Lemma unique_from_covers (l seen : list fval) (x : fval) :
  In x l -> x <> NaN ->
  existsb (feq x) seen = true
  \/ existsb (feq x) (unique_from seen l) = true.
Proof.
  revert seen. induction l as [|y l IH]; intros seen Hin Hx; [destruct Hin|].
  simpl. destruct Hin as [-> | Hin].
  - destruct (existsb (feq x) seen) eqn:E; [now left|].
    right. simpl. rewrite (feq_refl x Hx). reflexivity.
  - destruct (existsb (feq y) seen) eqn:E; [apply IH; assumption|].
    destruct (IH (y :: seen) Hin Hx) as [H | H].
    + simpl in H. apply orb_true_iff in H. destruct H as [H | H].
      * right. simpl. rewrite H. reflexivity.
      * now left.
    + right. simpl. rewrite H. apply orb_true_r.
Qed.

Lemma distinct_keys_perm (l l' : list fval) :
  Permutation l l' -> distinct_keys l -> distinct_keys l'.
Proof.
  unfold distinct_keys.
  induction 1 as [|x l l' Hp IH|x y l|l l' l'' _ IH1 _ IH2]; intro H.
  - constructor.
  - inversion H as [|? ? Hx Hl]; subst.
    constructor; [exact (Permutation_Forall Hp Hx) | apply IH, Hl].
  - inversion H as [|? ? Hy Hl]; subst.
    inversion Hl as [|? ? Hx Hl']; subst.
    inversion Hy as [|? ? Hyx Hyl]; subst.
    constructor; [constructor; [rewrite feq_sym; exact Hyx | exact Hx]|].
    constructor; assumption.
  - apply IH2, IH1, H.
Qed.

Lemma insert_asc_perm (x : fval) (l : list fval) :
  Permutation (insert_asc x l) (x :: l).
Proof.
  induction l as [|y l IH]; simpl; [apply Permutation_refl|].
  destruct (fle x y); [apply Permutation_refl|].
  apply perm_trans with (y :: x :: l); [|apply perm_swap].
  apply perm_skip, IH.
Qed.

Lemma sort_asc_perm (l : list fval) : Permutation (sort_asc l) l.
Proof.
  induction l as [|x l IH]; simpl; [apply perm_nil|].
  apply perm_trans with (x :: sort_asc l);
    [apply insert_asc_perm | apply perm_skip, IH].
Qed.

Lemma group_keys_distinct (keys : list fval) :
  distinct_keys (group_keys keys).
Proof.
  unfold group_keys.
  eapply distinct_keys_perm;
    [apply Permutation_sym, sort_asc_perm | apply unique_distinct].
Qed.

Lemma group_keys_in (keys : list fval) (k : fval) :
  In k (group_keys keys) -> In k keys /\ k <> NaN.
Proof.
  unfold group_keys. intro H.
  apply (Permutation_in _ (sort_asc_perm _)) in H.
  apply unique_from_incl in H. apply filter_In in H.
  destruct H as [H1 H2]. split; [exact H1|].
  intros ->. discriminate.
Qed.

Lemma group_keys_cover (keys : list fval) (k : fval) :
  In k keys ->
  existsb (feq k) (group_keys keys) = negb (is_nan k).
Proof.
  intro Hin. destruct (is_nan k) eqn:E; simpl.
  - destruct k; try discriminate.
    apply not_true_is_false. intro H. apply existsb_exists in H.
    destruct H as (y & _ & H). discriminate.
  - assert (Hk : k <> NaN) by (intros ->; discriminate).
    assert (Hin' : In k (filter (fun k => negb (is_nan k)) keys)).
    { apply filter_In. rewrite E. auto. }
    destruct (unique_from_covers _ [] k Hin' Hk) as [H|H]; [discriminate|].
    apply existsb_exists in H. destruct H as (y & Hy & H).
    apply existsb_exists. exists y. split; [|exact H].
    unfold group_keys.
    apply (Permutation_in _ (Permutation_sym (sort_asc_perm _))). exact Hy.
Qed.



Lemma nansum_Fin (l : list Q) :
  l <> [] -> nansum (map Fin l) = Fin (fold_left Qplus l 0).
Proof.
  intro Hl. unfold nansum.
  assert (H : filter (fun v => negb (is_nan v)) (map Fin l) = map Fin l).
  { clear Hl. induction l as [|x l IH]; simpl; [reflexivity|].
    rewrite IH. reflexivity. }
  rewrite H. destruct l as [|x l]; [congruence|].
  exact (fold_left_fadd_Fin (x :: l) 0).
Qed.




Lemma for_each_post (md : Metadata) (l : list (fval * fval)) :
  forall account : Account,
    let res :=
      for_each l (fun sa_amt =>
                    modify (add_transaction (snd sa_amt) (fst sa_amt) md))
               account in
    fst res = Ok tt
    /\ transactions (snd res)
       = transactions account
         ++ map (fun sa_amt => mkTransaction (snd sa_amt) (fst sa_amt) md) l.
Proof.
  induction l as [|p l IH]; intro account; cbv zeta.
  - simpl. split; [reflexivity | rewrite app_nil_r; reflexivity].
  - change (for_each (p :: l)
              (fun sa_amt =>
                 modify (add_transaction (snd sa_amt) (fst sa_amt) md))
              account)
      with (for_each l
              (fun sa_amt =>
                 modify (add_transaction (snd sa_amt) (fst sa_amt) md))
              (add_transaction (snd p) (fst p) md account)).
    destruct (IH (add_transaction (snd p) (fst p) md account)) as [H1 H2].
    split; [exact H1|]. rewrite H2. simpl. rewrite <- app_assoc. reflexivity.
Qed.



(** ** The binary search *)

Lemma half_lt (n : nat) : (0 < n)%nat -> (n / 2 < n)%nat.
Proof. intro H. apply Nat.div_lt; lia. Qed.

Lemma binsearch_left_cut (a : list fval) (v : fval) :
  less_first a v ->
  forall fuel lo hi,
    (hi - lo <= fuel)%nat ->
    (lo <= hi <= List.length a)%nat ->
    (forall j, (j < lo)%nat -> np_less (nth j a NaN) v = true) ->
    (forall j, (hi <= j < List.length a)%nat ->
               np_less (nth j a NaN) v = false) ->
    exists i, binsearch_left fuel a v lo hi = Some i /\ cut_at a v i.
Proof.
  intros Hmono fuel.
  induction fuel as [|fuel IH]; intros lo hi Hfuel Hb Hlo Hhi.
  - assert (lo = hi) by lia. subst hi.
    exists lo. cbn [binsearch_left]. rewrite Nat.ltb_irrefl.
    split; [reflexivity|]. split; [lia|]. split; assumption.
  - cbn [binsearch_left]. destruct (Nat.ltb lo hi) eqn:E.
    + apply Nat.ltb_lt in E.
      pose proof (half_lt (hi - lo) ltac:(lia)) as Hhalf.
      set (mid := (lo + (hi - lo) / 2)%nat) in *.
      destruct (np_less (nth mid a NaN) v) eqn:Hmid.
      * apply IH; try lia.
        -- intros j Hj. apply (Hmono j mid); [lia | exact Hmid].
        -- exact Hhi.
      * apply IH; try lia.
        -- exact Hlo.
        -- intros j Hj. destruct (np_less (nth j a NaN) v) eqn:Ej;
             [|reflexivity].
           rewrite (Hmono mid j ltac:(lia) Ej) in Hmid. discriminate.
    + apply Nat.ltb_ge in E. assert (lo = hi) by lia. subst hi.
      exists lo. split; [reflexivity|]. split; [lia|]. split; assumption.
Qed.

(** The search always returns: the fuel [searchsorted] gives it is never
    used up, on any array. *)
Lemma binsearch_left_returns (a : list fval) (v : fval) :
  forall fuel lo hi,
    (hi - lo <= fuel)%nat ->
    exists i, binsearch_left fuel a v lo hi = Some i.
Proof.
  induction fuel as [|fuel IH]; intros lo hi Hfuel; cbn [binsearch_left].
  - destruct (Nat.ltb lo hi) eqn:E; [|eexists; reflexivity].
    apply Nat.ltb_lt in E. lia.
  - destruct (Nat.ltb lo hi) eqn:E; [|eexists; reflexivity].
    apply Nat.ltb_lt in E.
    pose proof (half_lt (hi - lo) ltac:(lia)) as Hhalf.
    destruct (np_less _ v); apply IH; lia.
Qed.

Lemma searchsorted_returns (a : list fval) (v : fval) :
  binsearch_left (List.length a) a v 0 (List.length a)
  = Some (searchsorted a v).
Proof.
  unfold searchsorted.
  destruct (binsearch_left_returns a v (List.length a) 0 (List.length a))
    as [i Hi]; [lia|].
  rewrite Hi. reflexivity.
Qed.

(** On an array whose elements less than [v] come first, [searchsorted]
    returns the position that cuts it at [v]. *)
Lemma searchsorted_cut (a : list fval) (v : fval) :
  less_first a v -> cut_at a v (searchsorted a v).
Proof.
  intro Hmono. unfold searchsorted.
  destruct (binsearch_left_cut a v Hmono (List.length a) 0 (List.length a))
    as (i & Hi & Hcut); try lia.
  rewrite Hi. exact Hcut.
Qed.

Lemma cut_at_unique (a : list fval) (v : fval) (i j : nat) :
  cut_at a v i -> cut_at a v j -> i = j.
Proof.
  intros (Hi & Hi1 & Hi2) (Hj & Hj1 & Hj2).
  destruct (Nat.lt_trichotomy i j) as [H | [H | H]]; [|exact H|].
  - specialize (Hi2 i ltac:(lia)). rewrite (Hj1 i H) in Hi2. discriminate.
  - specialize (Hj2 j ltac:(lia)). rewrite (Hi1 j H) in Hj2. discriminate.
Qed.

(** ** Cumulative cost *)

Lemma cumsum_from_Fin (l : list Q) (acc : Q) :
  cumsum_from (Fin acc) (map Fin l) = map Fin (Qcumsum acc l).
Proof.
  revert acc. induction l as [|x l IH]; intro acc; simpl; [reflexivity|].
  rewrite IH. reflexivity.
Qed.

Lemma Qcumsum_length (l : list Q) (acc : Q) :
  List.length (Qcumsum acc l) = List.length l.
Proof.
  revert acc. induction l as [|x l IH]; intro acc; simpl;
    [reflexivity | rewrite IH; reflexivity].
Qed.

Lemma nth_Qcumsum (l : list Q) :
  forall (acc : Q) (i : nat),
    (i < List.length l)%nat ->
    nth i (Qcumsum acc l) 0 == acc + Qsum (firstn (S i) l).
Proof.
  induction l as [|x l IH]; intros acc i Hi; [simpl in Hi; lia|].
  destruct i as [|i].
  - simpl. lra.
  - change (nth (S i) (Qcumsum acc (x :: l)) 0)
      with (nth i (Qcumsum (acc + x) l) 0).
    rewrite IH; [|simpl in Hi; lia].
    change (firstn (S (S i)) (x :: l)) with (x :: firstn (S i) l).
    simpl. lra.
Qed.

Lemma Qsum_nonneg (l : list Q) :
  Forall (fun c => 0 <= c) l -> 0 <= Qsum l.
Proof.
  induction 1 as [|c l Hc _ IH]; simpl; lra.
Qed.

Lemma Qsum_firstn_le (l : list Q) (i j : nat) :
  Forall (fun c => 0 <= c) l ->
  (i <= j)%nat ->
  Qsum (firstn i l) <= Qsum (firstn j l).
Proof.
  intro Hl. revert i j. induction Hl as [|c l Hc Hl IH]; intros i j Hij.
  - rewrite !firstn_nil. lra.
  - destruct i as [|i].
    + simpl. apply (Qsum_nonneg (firstn j (c :: l))).
      apply Forall_forall. intros x Hx. apply firstn_incl in Hx.
      assert (H : Forall (fun c => 0 <= c) (c :: l)) by (constructor; auto).
      rewrite Forall_forall in H. apply H, Hx.
    + destruct j as [|j]; [lia|]. simpl.
      specialize (IH i j ltac:(lia)). lra.
Qed.

Lemma np_less_Fin_le (x y : Q) (v : fval) :
  x <= y -> np_less (Fin y) v = true -> np_less (Fin x) v = true.
Proof.
  intro Hxy. unfold np_less. destruct v as [b| | |]; simpl; try tauto.
  rewrite !orb_false_r, !Qltb_lt. lra.
Qed.

Lemma nth_map_Fin (l : list Q) (i : nat) :
  (i < List.length l)%nat -> nth i (map Fin l) NaN = Fin (nth i l 0).
Proof.
  intro Hi. rewrite (nth_indep _ NaN (Fin 0)); [|rewrite length_map; exact Hi].
  apply map_nth.
Qed.

(** The running sums of costs that are not negative are ascending. *)
Lemma cumsum_less_first (costs : list Q) (v : fval) :
  Forall (fun c => 0 <= c) costs ->
  less_first (cumsum (map Fin costs)) v.
Proof.
  intros Hc i j. unfold cumsum.
  rewrite cumsum_from_Fin, length_map, Qcumsum_length. intro Hij.
  rewrite !nth_map_Fin by (rewrite Qcumsum_length; lia).
  apply np_less_Fin_le.
  rewrite !nth_Qcumsum by lia.
  pose proof (Qsum_firstn_le costs (S i) (S j) Hc ltac:(lia)). lra.
Qed.

(** What the cut of step 8 is on costs that are numbers and not negative:
    the position [n] such that the first [m] costs add up to less than the
    amount for every [m] from 1 to [n], and the first [n + 1] do not. *)
Lemma searchsorted_cumsum (costs : list Q) (amount : fval) :
  Forall (fun c => 0 <= c) costs ->
  let n := searchsorted (cumsum (map Fin costs)) amount in
  (n <= List.length costs)%nat
  /\ (forall m, (0 < m <= n)%nat ->
                np_less (Fin (Qsum (firstn m costs))) amount = true)
  /\ (forall m, (n < m <= List.length costs)%nat ->
                np_less (Fin (Qsum (firstn m costs))) amount = false).
Proof.
  intros Hc n.
  destruct (searchsorted_cut _ amount (cumsum_less_first costs amount Hc))
    as (Hlen & Hlt & Hge).
  fold n in Hlen, Hlt, Hge.
  unfold cumsum in Hlen, Hlt, Hge. rewrite cumsum_from_Fin in Hlen, Hlt, Hge.
  rewrite length_map, Qcumsum_length in Hlen, Hge.
  assert (Hnth : forall j, (j < List.length costs)%nat ->
                 np_less (nth j (map Fin (Qcumsum 0 costs)) NaN) amount
                 = np_less (Fin (Qsum (firstn (S j) costs))) amount).
  { intros j Hj. rewrite nth_map_Fin by (rewrite Qcumsum_length; lia).
    pose proof (nth_Qcumsum costs 0 j Hj) as H.
    assert (H1 : nth j (Qcumsum 0 costs) 0 <= Qsum (firstn (S j) costs))
      by lra.
    assert (H2 : Qsum (firstn (S j) costs) <= nth j (Qcumsum 0 costs) 0)
      by lra.
    destruct (np_less (Fin (Qsum (firstn (S j) costs))) amount) eqn:E.
    - exact (np_less_Fin_le _ _ _ H1 E).
    - destruct (np_less (Fin (nth j (Qcumsum 0 costs) 0)) amount) eqn:E';
        [|reflexivity].
      rewrite (np_less_Fin_le _ _ _ H2 E') in E. discriminate. }
  split; [exact Hlen|]. split.
  - intros [|m] Hm; [lia|]. rewrite <- Hnth by lia. apply Hlt. lia.
  - intros [|m] Hm; [lia|]. rewrite <- Hnth by lia. apply Hge. lia.
Qed.

(** ** The cost of a selection *)

Lemma candidates_priced (feasibility parcels cand : DataFrame)
      (st : Program.Settings) :
  candidates feasibility parcels st = Ok cand ->
  Forall priced (rows cand).
Proof.
  intro Hcand. apply Forall_forall. intros r Hin.
  destruct (candidates_rows feasibility parcels cand st r Hcand Hin)
    as (ave & r0 & _ & _ & -> & Hneg & _).
  destruct (negative_is_finite _ Hneg) as (q & Hq & Hlt).
  destruct (candidate_row_cells
              ave (Program.sending_buildings_subaccount_def st) r0)
    as (_ & Hmp & _).
  exists q. rewrite Hmp, Hq. split; [reflexivity | exact Hlt].
Qed.

Lemma costs_priced (l : list Row) :
  Forall priced l ->
  map (fun r => fmul (Fin (-1)) (cell r "max_profit")) l
  = map Fin (map row_cost l)
  /\ Forall (fun c => 0 <= c) (map row_cost l).
Proof.
  induction 1 as [|r l (q & Hq & Hlt) _ [IH1 IH2]]; cbn [map];
    [split; [reflexivity | constructor]|].
  assert (Hc : row_cost r = (-1) * q)
    by (unfold row_cost; rewrite Hq; reflexivity).
  rewrite IH1, Hc, Hq. cbn [fmul].
  split; [reflexivity|]. constructor; [lra | exact IH2].
Qed.

Lemma sorted_candidates_priced (feasibility : DataFrame) (subacct : fval) :
  Forall priced (rows feasibility) ->
  Forall priced (rows (sorted_candidates feasibility subacct)).
Proof.
  intro H. unfold sorted_candidates, sort_desc, select. simpl.
  apply (Permutation_Forall (Permutation_sym (sort_rows_desc_perm _ _))).
  apply Forall_forall. intros r Hr. apply filter_In in Hr.
  rewrite Forall_forall in H. apply H. tauto.
Qed.

(** The rows selected for a subaccount cost, together, less than the
    amount of the subaccount. *)
Lemma selection_within_amount (feasibility df : DataFrame)
      (subacct amount : fval) :
  Forall priced (rows feasibility) ->
  selection feasibility subacct amount = Some df ->
  Forall priced (rows df)
  /\ rows df <> []
  /\ np_less (Fin (Qsum (map row_cost (rows df)))) amount = true.
Proof.
  intros Hp Hsel.
  destruct (selection_prefix _ _ _ _ Hsel) as [Hrows Hn].
  pose proof (sorted_candidates_priced feasibility subacct Hp) as Hs.
  destruct (costs_priced _ Hs) as [Hcosts Hpos].
  unfold subsidy_costs in Hrows, Hn.
  rewrite Hcosts in Hrows, Hn.
  destruct (searchsorted_cumsum _ amount Hpos) as (Hlen & Hlt & _).
  set (n := searchsorted _ amount) in *.
  rewrite length_map in Hlen.
  split; [|split].
  - rewrite Hrows. apply Forall_forall. intros r Hr.
    apply firstn_incl in Hr. rewrite Forall_forall in Hs. apply Hs, Hr.
  - rewrite Hrows. destruct (rows (sorted_candidates feasibility subacct));
      [simpl in Hlen; lia|].
    destruct n; [congruence | discriminate].
  - rewrite Hrows, <- firstn_map. apply Hlt. lia.
Qed.



(** ** What is booked *)





Section Booked.

Context {World : Type}.
Variable rd : Developer World.
Variable year : Z.
Hypothesis rd_builds : builds_from_candidates rd.



End Booked.

(** Transactions against other subaccounts leave the total of a subaccount
    as it was: the balance the loop reads for a subaccount is its balance at
    the start of the call, whether it is read then or when its turn comes. *)
Lemma total_unchanged_by_other_subaccounts (acct acct' : Account)
      (subacct : fval) (b : list Transaction) :
  transactions acct' = transactions acct ++ b ->
  booked_to subacct b = [] ->
  total_transactions_by_subacct acct' subacct
  = total_transactions_by_subacct acct subacct.
Proof.
  intros Ht Hb. unfold total_transactions_by_subacct.
  rewrite Ht, filter_app. unfold booked_to in Hb. rewrite Hb, app_nil_r.
  reflexivity.
Qed.



(** ** Determinism of the selection *)

Lemma loop_effect_complete {World : Type} (rd : Developer World)
      (feasibility : DataFrame) (year : Z) subaccounts b c :
  loop_effect rd feasibility year true subaccounts b c ->
  c = selected_calls feasibility subaccounts.
Proof.
  intro H. remember true as ok eqn:Hok.
  induction H as [|ok sa amt rest b c Hsel _ IH
                  |ok sa amt rest df booked b c Hsel _ _ IH
                  |sa amt rest df Hsel]; simpl.
  - reflexivity.
  - rewrite Hsel. simpl. exact (IH Hok).
  - rewrite Hsel. simpl. rewrite (IH Hok). reflexivity.
  - discriminate.
Qed.

(** A loop that stops at an exception has made the first calls of the loop
    that runs to its end. *)
Lemma loop_effect_prefix {World : Type} (rd : Developer World)
      (feasibility : DataFrame) (year : Z) ok subaccounts b c :
  loop_effect rd feasibility year ok subaccounts b c ->
  exists k, c = firstn k (selected_calls feasibility subaccounts).
Proof.
  induction 1 as [|ok sa amt rest b c Hsel _ [k IH]
                  |ok sa amt rest df booked b c Hsel _ _ [k IH]
                  |sa amt rest df Hsel]; simpl.
  - exists 0%nat. reflexivity.
  - rewrite Hsel. simpl. exists k. exact IH.
  - rewrite Hsel. simpl. exists (S k). rewrite IH. reflexivity.
  - rewrite Hsel. simpl. exists 1%nat. reflexivity.
Qed.

Lemma nth_error_firstn_some {A : Type} (k i : nat) (l : list A) (x : A) :
  nth_error (firstn k l) i = Some x -> nth_error l i = Some x.
Proof.
  revert i l. induction k as [|k IH]; intros i l H.
  - destruct i; discriminate.
  - destruct l as [|y l]; [destruct i; discriminate|].
    destruct i as [|i]; [exact H | exact (IH i l H)].
Qed.

(** C9: two calls of the allocator on the same feasibility table, parcels
    and settings, from ledgers that report the same subaccounts with the
    same balances, make the same selections: the frames they hand to the
    developer agree call by call, whatever the developers build, the years
    and the rest of the two states are, and are the same list when both
    calls run to their end. *)
Theorem C9_selection_is_deterministic :
  forall (World1 World2 : Type) (feasibility parcels : DataFrame)
         (st : Program.Settings) (year1 year2 : Z)
         (rd1 : Developer World1) (rd2 : Developer World2)
         (s1 : Sim World1) (s2 : Sim World2),
    iter_subaccounts (account s1) = iter_subaccounts (account s2) ->
    let run1 :=
      run_subsidized_developer feasibility parcels st year1 rd1 s1 in
    let run2 :=
      run_subsidized_developer feasibility parcels st year2 rd2 s2 in
    (forall i call1 call2,
        nth_error (calls_of_run s1 (snd run1)) i = Some call1 ->
        nth_error (calls_of_run s2 (snd run2)) i = Some call2 ->
        call1 = call2)
    /\ (fst run1 = Ok tt -> fst run2 = Ok tt ->
        calls_of_run s1 (snd run1) = calls_of_run s2 (snd run2)).
Proof.
  intros World1 World2 feasibility parcels st year1 year2 rd1 rd2 s1 s2
         Hiter run1 run2. subst run1 run2.
  pose proof (run_subsidized_developer_effect feasibility parcels st year1
                                              rd1 s1) as H1.
  pose proof (run_subsidized_developer_effect feasibility parcels st year2
                                              rd2 s2) as H2.
  cbv zeta in H1, H2.
  destruct (candidates feasibility parcels st) as [cand|e].
  - destruct H1 as (ok1 & b1 & c1 & _ & Hc1 & Heff1 & Hk1).
    destruct H2 as (ok2 & b2 & c2 & _ & Hc2 & Heff2 & Hk2).
    unfold calls_of_run. rewrite Hc1, Hc2, !skipn_length_app.
    split.
    + intros i call1 call2 Hn1 Hn2.
      destruct (loop_effect_prefix _ _ _ _ _ _ _ Heff1) as [k1 Hp1].
      destruct (loop_effect_prefix _ _ _ _ _ _ _ Heff2) as [k2 Hp2].
      rewrite Hp1 in Hn1. rewrite Hp2, <- Hiter in Hn2.
      apply nth_error_firstn_some in Hn1, Hn2. congruence.
    + intros Hok1 Hok2.
      apply Hk1 in Hok1. apply Hk2 in Hok2. subst ok1 ok2.
      rewrite (loop_effect_complete _ _ _ _ _ _ Heff1).
      rewrite (loop_effect_complete _ _ _ _ _ _ Heff2).
      rewrite Hiter. reflexivity.
  - rewrite H1, H2. simpl. unfold calls_of_run.
    rewrite !skipn_length_self.
    split; [intros [|i] call1 call2 Hn1; discriminate | reflexivity].
Qed.

(** ** Instances *)

Lemma build_all_builds_from_candidates :
  builds_from_candidates Example.build_all.
Proof.
  intros w call year w' nb H. unfold Example.build_all in H.
  injection H as _ <-. exists (rows (table call)), [].
  split; [rewrite app_nil_r; apply Permutation_refl | reflexivity].
Defined.



(** C2, at the scenario of the claim and at a balance the cumulative cost
    meets exactly: with the sorted costs 200,000 / 500,000 / 900,000 and the
    balance 1,000,000 the first two candidates are selected; with the balance
    700,000 only the first is, although the first two cost 700,000 together,
    which does not exceed the balance. *)
Theorem C2_cut_drops_candidate_that_meets_balance :
  map idx (rows (sorted_candidates Example.candidate_table (Fin 1)))
  = [2; 1; 3]%Z
  /\ cumsum (subsidy_costs (sorted_candidates Example.candidate_table
                                              (Fin 1)))
     = [Fin 200000; Fin 700000; Fin 1600000]
  /\ option_map (fun df => map idx (rows df))
                (selection Example.candidate_table (Fin 1) (Fin 1000000))
     = Some [2; 1]%Z
  /\ fle (Fin 700000) (Fin 700000) = true
  /\ option_map (fun df => map idx (rows df))
                (selection Example.candidate_table (Fin 1) (Fin 700000))
     = Some [2]%Z.
Proof.
  vm_compute. repeat split.
Qed.

Lemma C3_witness :
  fge (cell (nth 0 (rows (sorted_candidates Example.candidate_table (Fin 1)))
                 Example.no_row) "subsidy_per_unit")
      (cell (nth 1 (rows (sorted_candidates Example.candidate_table (Fin 1)))
                 Example.no_row) "subsidy_per_unit")
  = true.
Proof.
  apply (C3_candidates_sorted_least_negative_first
           Example.feasibility Example.parcels Example.candidate_table
           Example.program (Fin 1) [] []
           (skipn 2 (rows (sorted_candidates Example.candidate_table
                                             (Fin 1))))).
  - vm_compute. reflexivity.
  - vm_compute. reflexivity.
Defined.

Lemma C4_witness :
  exists r0 q,
    In r0 (rows Example.feasibility)
    /\ idx r0 = idx (nth 0 (rows Example.selected) Example.no_row)
    /\ cell r0 "max_profit" = Fin q
    /\ cell (nth 0 (rows Example.selected) Example.no_row) "max_profit"
       = Fin q
    /\ q < 0
    /\ flt (cell (nth 0 (rows Example.selected) Example.no_row)
                 "total_residential_units")
           (cell (nth 0 (rows Example.selected) Example.no_row)
                 "residential_units")
       = true.
Proof.
  apply (C4_built_candidates_lose_money_and_add_units
           unit Example.feasibility Example.parcels Example.program 2015
           Example.build_all (Example.start (Example.funds 1000000))
           (mkFormFrame "residential" Example.selected)).
  - vm_compute. left. reflexivity.
  - vm_compute. left. reflexivity.
Defined.



Lemma C6_witness :
  exists n,
    has_column Example.buildings n = false
    /\ tax_buildings Example.buildings
                     (Example.tax_settings Example.in_district) 2015
                     Example.prop_tax
       = (Err (UndefinedVariableError n), Example.prop_tax).
Proof.
  apply (C6_missing_field_aborts_tax_collection
           Example.buildings (Example.tax_settings Example.in_district) 2015
           Example.prop_tax "tpp_id").
  - left. vm_compute. left. reflexivity.
  - vm_compute. reflexivity.
Defined.

Lemma C7_witness :
  snd (calculate_vmt_fees (Example.tax_settings Example.has_units) 2015
                          Example.old_output 5 coffer)
  = coffer
  /\ (has_column (parcel_output Example.old_output) "year_built" = true ->
      has_column (parcel_output Example.old_output) "subsidized" = true ->
      calculate_vmt_fees (Example.tax_settings Example.has_units) 2015
                         Example.old_output 5 coffer
      = (Ok tt, coffer)).
Proof.
  apply (C7_no_qualifying_building_posts_nothing
           (Example.tax_settings Example.has_units) 2015
           Example.old_output 5 coffer).
  intros r Hr. vm_compute in Hr.
  destruct Hr as [<- | [<- | []]]; vm_compute; reflexivity.
Defined.


Lemma C9_witness :
  let run1 :=
    run_subsidized_developer
      Example.feasibility Example.parcels Example.program 2015
      Example.build_all (Example.start (Example.funds 1000000)) in
  let run2 :=
    run_subsidized_developer
      Example.feasibility Example.parcels Example.program 2020
      Example.build_none (Example.start (Example.funds 1000000)) in
  (forall i call1 call2,
      nth_error (calls_of_run (Example.start (Example.funds 1000000))
                              (snd run1)) i = Some call1 ->
      nth_error (calls_of_run (Example.start (Example.funds 1000000))
                              (snd run2)) i = Some call2 ->
      call1 = call2)
  /\ (fst run1 = Ok tt -> fst run2 = Ok tt ->
      calls_of_run (Example.start (Example.funds 1000000)) (snd run1)
      = calls_of_run (Example.start (Example.funds 1000000)) (snd run2)).
Proof.
  apply (C9_selection_is_deterministic
           unit unit Example.feasibility Example.parcels Example.program
           2015 2020 Example.build_all Example.build_none
           (Example.start (Example.funds 1000000))
           (Example.start (Example.funds 1000000))).
  reflexivity.
Defined.

Lemma C10_witness :
  let s := Example.start (Example.funds 1000000) in
  let s' := snd (run_subsidized_developer
                   Example.feasibility Example.parcels Example.program 2015
                   Example.build_all s) in
  let r := nth 3 (rows Example.candidate_table) Example.no_row in
  (forall call, In call (calls_of_run s s') -> ~ In r (rows (table call)))
  /\ (forall t, In t (booked_in_run s s') ->
                feq (cell r "subaccount") (subaccount t) = false).
Proof.
  apply (C10_unreported_subaccount_never_funded
           unit Example.feasibility Example.parcels Example.candidate_table
           Example.program 2015 Example.build_all
           (Example.start (Example.funds 1000000))
           (nth 3 (rows Example.candidate_table) Example.no_row)).
  - vm_compute. reflexivity.
  - vm_compute. do 3 right. left. reflexivity.
  - intros subacct amount H. vm_compute in H.
    destruct H as [H | []]. injection H as <- _. vm_compute. reflexivity.
Defined.

(** * Further properties *)

(** ** The fund posters *)


Lemma total_after_add_transaction (acct : Account) (amt subacct : fval)
      (md : Metadata) (sa : fval) :
  total_transactions_by_subacct (add_transaction amt subacct md acct) sa
  = if feq subacct sa
    then fadd (total_transactions_by_subacct acct sa) amt
    else total_transactions_by_subacct acct sa.
Proof.
  unfold total_transactions_by_subacct, add_transaction. simpl.
  rewrite filter_app. simpl.
  destruct (feq subacct sa).
  - rewrite map_app. unfold py_sum. rewrite fold_left_app. reflexivity.
  - rewrite app_nil_r. reflexivity.
Qed.

(** X1: [add_obag_funds] posts one transaction, of the total amount of the
    settings times the years of an iteration, against subaccount 1 of the
    OBAG account: the balance of that subaccount rises by that amount, and
    the two other accounts are as they were. *)
Theorem add_obag_funds_raises_regional_balance :
  forall (settings : AcctSettings) (year years_per_iter : Z) (c : Coffer)
         (b : Q),
    total_transactions_by_subacct (obag_acct c) (Fin 1) = Fin b ->
    let res := add_obag_funds settings year years_per_iter c in
    fst res = Ok tt
    /\ prop_tax_acct (snd res) = prop_tax_acct c
    /\ vmt_fee_acct (snd res) = vmt_fee_acct c
    /\ (exists t,
           transactions (obag_acct (snd res))
           = transactions (obag_acct c) ++ [t]
           /\ subaccount t = Fin 1
           /\ Ledger.year (metadata t) = year)
    /\ total_transactions_by_subacct (obag_acct (snd res)) (Fin 1)
       = Fin (b + Program.total_amount (obag_settings settings)
                  * inject_Z years_per_iter).
Proof.
  intros settings year ypi c b Hb res. subst res.
  unfold add_obag_funds, modify. simpl.
  split; [reflexivity|]. split; [reflexivity|]. split; [reflexivity|].
  split.
  - eexists. split; [reflexivity|]. split; reflexivity.
  - rewrite total_after_add_transaction.
    change (feq (Fin 1) (Fin 1)) with true. cbv iota.
    rewrite Hb. reflexivity.
Qed.

Lemma reported_after_posting (acct : Account) (amt subacct : fval)
      (md : Metadata) :
  subacct <> NaN ->
  exists sa amount,
    In (sa, amount)
       (iter_subaccounts (add_transaction amt subacct md acct))
    /\ feq subacct sa = true.
Proof.
  intro Hk.
  assert (Hin : In subacct
                   (map subaccount
                        (transactions (add_transaction amt subacct md acct)))).
  { unfold add_transaction. simpl. rewrite map_app. apply in_or_app.
    right. now left. }
  destruct (unique_from_covers _ [] subacct Hin Hk) as [H | H];
    [discriminate|].
  apply existsb_exists in H. destruct H as (sa & Hsa & Hfeq).
  exists sa, (total_transactions_by_subacct
                (add_transaction amt subacct md acct) sa).
  split; [|exact Hfeq].
  unfold iter_subaccounts.
  apply (in_map (fun sa => (sa, total_transactions_by_subacct
                                  (add_transaction amt subacct md acct) sa))).
  exact Hsa.
Qed.

(** X2: The regional convention.  A program whose subaccounts are defined by the
    column [regional] puts every candidate in subaccount 1, the subaccount
    [add_obag_funds] posts to: once the funds are posted, every candidate
    belongs to a subaccount the OBAG account reports. *)
Theorem regional_candidates_meet_obag_funds :
  forall (feasibility parcels cand : DataFrame) (st : Program.Settings)
         (settings : AcctSettings) (year years_per_iter : Z) (c : Coffer)
         (r : Row),
    Program.sending_buildings_subaccount_def st = NCol "regional" ->
    candidates feasibility parcels st = Ok cand ->
    In r (rows cand) ->
    cell r "subaccount" = Fin 1
    /\ exists subacct amount,
        In (subacct, amount)
           (iter_subaccounts
              (obag_acct (snd (add_obag_funds settings year years_per_iter
                                              c))))
        /\ feq (cell r "subaccount") subacct = true.
Proof.
  intros feasibility parcels cand st settings year ypi c r Hdef Hcand Hin.
  destruct (candidates_rows feasibility parcels cand st r Hcand Hin)
    as (ave & r0 & _ & _ & Hr & _).
  assert (Hsub : cell r "subaccount" = Fin 1).
  { rewrite Hr, Hdef. reflexivity. }
  split; [exact Hsub|]. rewrite Hsub.
  unfold add_obag_funds, modify. simpl.
  apply reported_after_posting. discriminate.
Qed.

(** ** The tax collector *)

Lemma for_each_post_name (md : Metadata) (l : list (fval * fval)) :
  forall account : Account,
    name (snd (for_each l (fun sa_amt =>
                             modify (add_transaction (snd sa_amt)
                                                     (fst sa_amt) md))
                        account))
    = name account.
Proof.
  induction l as [|p l IH]; intro account; [reflexivity|].
  change (for_each (p :: l)
            (fun sa_amt =>
               modify (add_transaction (snd sa_amt) (fst sa_amt) md))
            account)
    with (for_each l
            (fun sa_amt =>
               modify (add_transaction (snd sa_amt) (fst sa_amt) md))
            (add_transaction (snd p) (fst p) md account)).
  rewrite IH. reflexivity.
Qed.

Lemma group_values (c : string) (e : nexpr) (k : fval) (l : list Row) :
  map snd (filter (fun p => feq (fst p) k)
                  (combine (map (fun r => cell r c) l)
                           (map (fun r => neval r e) l)))
  = map (fun r => neval r e) (filter (fun r => feq (cell r c) k) l).
Proof.
  induction l as [|r l IH]; simpl; [reflexivity|].
  destruct (feq (cell r c) k); simpl; rewrite IH; reflexivity.
Qed.

(** What a call of [tax_buildings] that passes its three lookups does: it
    returns normally, having appended one transaction for every group of
    [groupby], of the sum of the taxes of the group. *)
Lemma tax_buildings_posts (buildings taxed : DataFrame) (st : AcctSettings)
      (year : Z) (account : Account) :
  query buildings (sending_buildings_filter st) = Ok taxed ->
  resolve taxed (nnames (sending_buildings_tax st)) = Ok tt ->
  has_column taxed (sending_buildings_subaccount_def st) = true ->
  let res := tax_buildings buildings st year account in
  fst res = Ok tt
  /\ name (snd res) = name account
  /\ transactions (snd res)
     = transactions account
       ++ map (fun k =>
                 mkTransaction
                   (nansum
                      (map (fun r => neval r (sending_buildings_tax st))
                           (filter
                              (fun r =>
                                 feq (cell r (sending_buildings_subaccount_def
                                                st)) k)
                              (rows taxed))))
                   k (mkMetadata "Collecting property tax" year None None))
              (group_keys
                 (map (fun r => cell r (sending_buildings_subaccount_def st))
                      (rows taxed))).
Proof.
  intros Hq Hres Hcol res. subst res.
  unfold tax_buildings, bind, lift. rewrite Hq.
  unfold eval, getitem. rewrite Hres, Hcol.
  match goal with |- context [for_each ?l ?b account] =>
    destruct (for_each_post
                (mkMetadata "Collecting property tax" year None None)
                l account) as [H1 H2];
    pose proof (for_each_post_name
                  (mkMetadata "Collecting property tax" year None None)
                  l account) as H3
  end.
  cbv zeta in H1, H2.
  split; [exact H1|]. split; [exact H3|].
  rewrite H2. f_equal. unfold groupby_sum.
  rewrite !map_map. simpl.
  apply map_ext. intro k. rewrite group_values. reflexivity.
Qed.

Lemma tax_buildings_ok_inv (buildings taxed : DataFrame) (st : AcctSettings)
      (year : Z) (account : Account) :
  query buildings (sending_buildings_filter st) = Ok taxed ->
  fst (tax_buildings buildings st year account) = Ok tt ->
  resolve taxed (nnames (sending_buildings_tax st)) = Ok tt
  /\ has_column taxed (sending_buildings_subaccount_def st) = true.
Proof.
  intros Hq. unfold tax_buildings, bind, lift. rewrite Hq.
  unfold eval, getitem.
  destruct (resolve taxed _) as [[]|]; [|discriminate].
  destruct (has_column taxed _); [|discriminate].
  intros _. split; reflexivity.
Qed.

Lemma fle_total (x y : fval) :
  x <> NaN -> y <> NaN -> fle x y = false -> fle y x = true.
Proof. intros Hx Hy. exact (fge_total y x Hy Hx). Qed.

Lemma fle_trans (x y z : fval) :
  fle x y = true -> fle y z = true -> fle x z = true.
Proof. intros H1 H2. exact (fge_trans z y x H2 H1). Qed.

Lemma insert_asc_sorted (x : fval) (l : list fval) :
  x <> NaN ->
  Forall (fun y => y <> NaN) l ->
  StronglySorted asc l ->
  StronglySorted asc (insert_asc x l).
Proof.
  intros Hx Hl Hs. induction Hs as [|y l Hs IH Hall]; simpl.
  - constructor; constructor.
  - inversion Hl as [|? ? Hy Hl']; subst.
    destruct (fle x y) eqn:E.
    + constructor; [constructor; assumption|].
      constructor; [exact E|].
      eapply Forall_impl; [|exact Hall].
      intros z Hz. unfold asc in *. eapply fle_trans; eassumption.
    + constructor; [apply IH; assumption|].
      apply (Permutation_Forall (Permutation_sym (insert_asc_perm x l))).
      constructor; [|exact Hall].
      apply fle_total; assumption.
Qed.

Lemma sort_asc_sorted (l : list fval) :
  Forall (fun y => y <> NaN) l -> StronglySorted asc (sort_asc l).
Proof.
  induction 1 as [|x l Hx Hl IH]; simpl; [constructor|].
  apply insert_asc_sorted; [exact Hx| |exact IH].
  apply (Permutation_Forall (Permutation_sym (sort_asc_perm l))). exact Hl.
Qed.

Lemma group_keys_sorted (keys : list fval) :
  StronglySorted asc (group_keys keys).
Proof.
  unfold group_keys. apply sort_asc_sorted. apply Forall_forall.
  intros k Hk. apply unique_from_incl in Hk. apply filter_In in Hk.
  destruct Hk as [_ Hk]. intros ->. discriminate.
Qed.

(** X3: [tax_buildings] posts one transaction per subaccount: when it returns
    normally it has only appended to the ledger; the subaccounts of the
    transactions it appended are pairwise different and in ascending order;
    each is the subaccount value of a filtered building, and every filtered
    building that has a subaccount value finds its subaccount among them;
    each carries the description of the tax and the year. *)
Theorem tax_buildings_one_transaction_per_subaccount :
  forall (buildings taxed : DataFrame) (st : AcctSettings) (year : Z)
         (account : Account),
    query buildings (sending_buildings_filter st) = Ok taxed ->
    fst (tax_buildings buildings st year account) = Ok tt ->
    let posted := posted_by_tax buildings st year account in
    let key := fun r => cell r (sending_buildings_subaccount_def st) in
    transactions (snd (tax_buildings buildings st year account))
    = transactions account ++ posted
    /\ distinct_keys (map subaccount posted)
    /\ StronglySorted asc (map subaccount posted)
    /\ (forall t, In t posted ->
                  subaccount t <> NaN
                  /\ (exists r, In r (rows taxed) /\ key r = subaccount t)
                  /\ description (metadata t) = "Collecting property tax"
                  /\ Ledger.year (metadata t) = year)
    /\ (forall r, In r (rows taxed) -> key r <> NaN ->
                  exists t, In t posted
                            /\ feq (key r) (subaccount t) = true).
Proof.
  intros buildings taxed st year account Hq Hok posted key.
  destruct (tax_buildings_ok_inv _ _ _ _ _ Hq Hok) as [Hres Hcol].
  destruct (tax_buildings_posts _ _ _ year account Hq Hres Hcol)
    as (_ & _ & Ht).
  assert (Hposted : map subaccount posted
                    = group_keys (map key (rows taxed))).
  { unfold posted, posted_by_tax. rewrite Ht, skipn_length_app.
    rewrite map_map. simpl. apply map_id. }
  split; [|split; [|split; [|split]]].
  - unfold posted, posted_by_tax. rewrite Ht, skipn_length_app. reflexivity.
  - rewrite Hposted. apply group_keys_distinct.
  - rewrite Hposted. apply group_keys_sorted.
  - intros t Hin.
    assert (Hk : In (subaccount t) (group_keys (map key (rows taxed)))).
    { rewrite <- Hposted. apply in_map. exact Hin. }
    apply group_keys_in in Hk. destruct Hk as [Hk Hnan].
    split; [exact Hnan|]. split.
    + apply in_map_iff in Hk. destruct Hk as (r & Hr & Hrin).
      exists r. split; [exact Hrin | exact Hr].
    + unfold posted, posted_by_tax in Hin.
      rewrite Ht, skipn_length_app in Hin.
      apply in_map_iff in Hin. destruct Hin as (k & <- & _).
      split; reflexivity.
  - intros r Hr Hnan.
    assert (Hc := group_keys_cover (map key (rows taxed)) (key r)
                    (in_map key _ _ Hr)).
    destruct (key r) eqn:E; try congruence;
      simpl in Hc; apply existsb_exists in Hc;
      destruct Hc as (k & Hk & Hfeq);
      rewrite <- Hposted in Hk; apply in_map_iff in Hk;
      destruct Hk as (t & <- & Ht'); exists t; split; assumption.
Qed.

(** X4: The amount [tax_buildings] posts against a subaccount is the sum of the
    taxes of the filtered buildings of that subaccount (the taxes being
    finite numbers). *)
Theorem tax_buildings_posts_the_tax_of_each_subaccount :
  forall (buildings taxed : DataFrame) (st : AcctSettings) (year : Z)
         (account : Account) (t : Transaction),
    query buildings (sending_buildings_filter st) = Ok taxed ->
    fst (tax_buildings buildings st year account) = Ok tt ->
    (forall r, In r (rows taxed) ->
               is_finite (neval r (sending_buildings_tax st)) = true) ->
    In t (posted_by_tax buildings st year account) ->
    amount t
    = py_sum (map (fun r => neval r (sending_buildings_tax st))
                  (filter
                     (fun r =>
                        feq (cell r (sending_buildings_subaccount_def st))
                            (subaccount t))
                     (rows taxed))).
Proof.
  intros buildings taxed st year account t Hq Hok Hfin Hin.
  destruct (tax_buildings_ok_inv _ _ _ _ _ Hq Hok) as [Hres Hcol].
  destruct (tax_buildings_posts _ _ _ year account Hq Hres Hcol)
    as (_ & _ & Ht).
  unfold posted_by_tax in Hin. rewrite Ht, skipn_length_app in Hin.
  apply in_map_iff in Hin. destruct Hin as (k & <- & Hk). simpl.
  set (c := sending_buildings_subaccount_def st) in *.
  set (e := sending_buildings_tax st) in *.
  set (g := filter (fun r => feq (cell r c) k) (rows taxed)).
  destruct (finite_values (map (fun r => neval r e) g)) as [qs Hqs].
  { apply Forall_forall. intros v Hv. apply in_map_iff in Hv.
    destruct Hv as (r & <- & Hr). apply Hfin.
    apply filter_In in Hr. tauto. }
  rewrite Hqs.
  assert (Hne : qs <> []).
  { apply group_keys_in in Hk. destruct Hk as [Hk Hnan].
    apply in_map_iff in Hk. destruct Hk as (r & Hr & Hrin).
    assert (Hg : In r g).
    { apply filter_In. split; [exact Hrin|]. rewrite Hr.
      apply feq_refl, Hnan. }
    intros ->. apply (in_map (fun r => neval r e)) in Hg.
    rewrite Hqs in Hg. destruct Hg. }
  rewrite (nansum_Fin qs Hne). unfold py_sum.
  rewrite fold_left_fadd_Fin. reflexivity.
Qed.

Lemma resolve_columns (df df' : DataFrame) (names : list string) :
  columns df' = columns df -> resolve df' names = resolve df names.
Proof.
  intro H. induction names as [|n names IH]; simpl; [reflexivity|].
  unfold has_column. rewrite H, IH. reflexivity.
Qed.

Lemma resolve_result (df : DataFrame) (names : list string) :
  resolve df names = Ok tt
  \/ exists n, resolve df names = Err (UndefinedVariableError n).
Proof.
  induction names as [|m names IH]; simpl; [now left|].
  destruct (has_column df m); [exact IH|]. right. eexists. reflexivity.
Qed.

(** X5: When the column that defines the subaccounts does not exist,
    [tax_buildings] raises and posts nothing; the exception is the
    [KeyError] of that column whenever the names of the filter and of the
    tax expression are columns. *)
Theorem tax_buildings_missing_subaccount_column :
  forall (buildings : DataFrame) (st : AcctSettings) (year : Z)
         (account : Account),
    has_column buildings (sending_buildings_subaccount_def st) = false ->
    exists e,
      tax_buildings buildings st year account = (Err e, account)
      /\ (resolve buildings (bnames (sending_buildings_filter st)) = Ok tt ->
          resolve buildings (nnames (sending_buildings_tax st)) = Ok tt ->
          e = KeyError (sending_buildings_subaccount_def st)).
Proof.
  intros buildings st year account Hcol.
  unfold tax_buildings, bind, lift, query.
  destruct (resolve_result buildings (bnames (sending_buildings_filter st)))
    as [Hf | [n Hf]]; rewrite Hf.
  - unfold eval.
    rewrite (resolve_columns buildings (select _ buildings) _ eq_refl).
    destruct (resolve_result buildings (nnames (sending_buildings_tax st)))
      as [Ht | [n Ht]]; rewrite Ht.
    + unfold getitem, has_column. simpl. unfold has_column in Hcol.
      rewrite Hcol. eexists. split; [reflexivity|]. reflexivity.
    + eexists. split; [reflexivity|]. discriminate.
  - eexists. split; [reflexivity|]. discriminate.
Qed.

(** X6: When no building passes the filter, [tax_buildings] posts nothing and
    returns normally (the names of its expressions and the subaccount column
    being columns of the table): the ledger is as it was. *)
Theorem tax_buildings_without_taxable_building :
  forall (buildings : DataFrame) (st : AcctSettings) (year : Z)
         (account : Account),
    (forall r, In r (rows buildings) ->
               beval r (sending_buildings_filter st) = false) ->
    resolve buildings (bnames (sending_buildings_filter st)) = Ok tt ->
    resolve buildings (nnames (sending_buildings_tax st)) = Ok tt ->
    has_column buildings (sending_buildings_subaccount_def st) = true ->
    tax_buildings buildings st year account = (Ok tt, account).
Proof.
  intros buildings st year account Hnone Hf Ht Hcol.
  unfold tax_buildings, bind, lift, query. rewrite Hf.
  unfold eval.
  rewrite (resolve_columns buildings (select _ buildings) _ eq_refl), Ht.
  unfold getitem, has_column. simpl. unfold has_column in Hcol.
  rewrite Hcol. rewrite (filter_none _ _ Hnone). reflexivity.
Qed.

(** ** The VMT fee *)

Lemma has_column_In (df : DataFrame) (c : string) :
  has_column df c = true <-> In c (columns df).
Proof.
  unfold has_column. rewrite existsb_exists. split.
  - intros (x & Hx & E). apply String.eqb_eq in E. subst. exact Hx.
  - intro H. exists c. split; [exact H | apply String.eqb_refl].
Qed.

Lemma has_column_assign (df : DataFrame) (c c' : string) (f : Row -> fval) :
  has_column df c = true -> has_column (assign c' f df) c = true.
Proof.
  rewrite !has_column_In. unfold assign. simpl.
  destruct (has_column df c'); [tauto|].
  intro H. apply in_or_app. now left.
Qed.

(** What [calculate_vmt_fees] does on a parcel output that has the four
    columns it reads: nothing when no building is charged, and else one
    transaction of the sum of the fees due. *)
Lemma calculate_vmt_fees_normal (settings : AcctSettings) (year : Z)
      (s : Summary) (years_per_iter : Z) (c : Coffer) :
  has_column (parcel_output s) "year_built" = true ->
  has_column (parcel_output s) "subsidized" = true ->
  has_column (parcel_output s) "vmt_res_cat" = true ->
  has_column (parcel_output s) "residential_units" = true ->
  calculate_vmt_fees settings year s years_per_iter c
  = match fee_base year years_per_iter s with
    | [] => (Ok tt, c)
    | base =>
        (Ok tt,
         mkCoffer
           (prop_tax_acct c)
           (add_transaction
              (nansum (map (fee_due (Program.fee_amounts
                                       (vmt_settings settings))) base))
              (Fin 1)
              (mkMetadata "VMT development fees" year None None)
              (vmt_fee_acct c))
           (obag_acct c))
    end.
Proof.
  intros H1 H2 H3 H4.
  unfold calculate_vmt_fees, bind, lift, query. simpl resolve.
  rewrite H1, H2. unfold len, select. simpl rows.
  fold (fee_base year years_per_iter s).
  destruct (fee_base year years_per_iter s) as [|r base] eqn:Hbase;
    [reflexivity|].
  cbn [List.length Nat.eqb].
  unfold attr.
  change (has_column
            {| columns := columns (parcel_output s); rows := r :: base |}
            "vmt_res_cat")
    with (has_column (parcel_output s) "vmt_res_cat").
  rewrite H3.
  match goal with |- context [has_column (assign ?c' ?f ?d)
                                         "residential_units"] =>
    rewrite (has_column_assign d "residential_units" c' f)
      by exact H4
  end.
  unfold modify, assign. cbn [rows columns List.length Nat.eqb].
  rewrite map_map. reflexivity.
Qed.

Lemma nansum_skips_nan (l : list fval) :
  Forall (fun v => is_finite v = true \/ v = NaN) l ->
  filter is_finite l <> [] ->
  nansum l = py_sum (filter is_finite l).
Proof.
  intros Hl Hne. unfold nansum.
  assert (H : filter (fun v => negb (is_nan v)) l = filter is_finite l).
  { apply filter_ext_in. intros v Hv. rewrite Forall_forall in Hl.
    destruct (Hl v Hv) as [Hf | ->]; [|reflexivity].
    destruct v; try discriminate. reflexivity. }
  rewrite H. destruct (filter is_finite l); [congruence | reflexivity].
Qed.

Lemma filter_map_comm {A B : Type} (f : A -> B) (p : B -> bool)
      (l : list A) :
  filter p (map f l) = map f (filter (fun x => p (f x)) l).
Proof.
  induction l as [|x l IH]; simpl; [reflexivity|].
  destruct (p (f x)); simpl; rewrite IH; reflexivity.
Qed.

(** X7: When some building is charged, [calculate_vmt_fees] posts exactly one
    transaction, against subaccount 1 of the VMT fee account, and leaves the
    two other accounts as they were.  Its amount is the sum, over the
    buildings charged, of the fee of the category times the units; a
    building whose category has no fee in the settings adds nothing to it. *)
Theorem calculate_vmt_fees_posts_the_fees_due :
  forall (settings : AcctSettings) (year : Z) (s : Summary)
         (years_per_iter : Z) (c : Coffer),
    has_column (parcel_output s) "year_built" = true ->
    has_column (parcel_output s) "subsidized" = true ->
    has_column (parcel_output s) "vmt_res_cat" = true ->
    has_column (parcel_output s) "residential_units" = true ->
    let fees := Program.fee_amounts (vmt_settings settings) in
    let base := fee_base year years_per_iter s in
    let with_fee := filter (fun r => is_finite (fee_due fees r)) base in
    (forall r, In r base ->
               is_finite (fee_due fees r) = true \/ fee_due fees r = NaN) ->
    with_fee <> [] ->
    let res := calculate_vmt_fees settings year s years_per_iter c in
    fst res = Ok tt
    /\ prop_tax_acct (snd res) = prop_tax_acct c
    /\ obag_acct (snd res) = obag_acct c
    /\ exists t,
        transactions (vmt_fee_acct (snd res))
        = transactions (vmt_fee_acct c) ++ [t]
        /\ subaccount t = Fin 1
        /\ Ledger.year (metadata t) = year
        /\ amount t = py_sum (map (fee_due fees) with_fee).
Proof.
  intros settings year s ypi c H1 H2 H3 H4 fees base with_fee Hfin Hne res.
  subst res. rewrite (calculate_vmt_fees_normal _ _ _ _ _ H1 H2 H3 H4).
  fold base. fold fees.
  destruct base as [|r0 base0] eqn:Hbase.
  - exfalso. apply Hne. reflexivity.
  - simpl. split; [reflexivity|]. split; [reflexivity|].
    split; [reflexivity|].
    eexists. split; [reflexivity|]. split; [reflexivity|].
    split; [reflexivity|]. simpl.
    change (fee_due fees r0 :: map (fee_due fees) base0)
      with (map (fee_due fees) (r0 :: base0)).
    rewrite nansum_skips_nan.
    + rewrite filter_map_comm. reflexivity.
    + apply Forall_forall. intros v Hv. apply in_map_iff in Hv.
      destruct Hv as (r & <- & Hr). apply Hfin, Hr.
    + rewrite filter_map_comm. intro Hnil. apply Hne.
      unfold with_fee. apply map_eq_nil in Hnil. exact Hnil.
Qed.

(** ** The allocator: what it leaves alone *)

Lemma loop_without_selection {World : Type} (rd : Developer World)
      (feasibility : DataFrame) (year : Z)
      (subaccounts : list (fval * fval)) :
  (forall sa amt, In (sa, amt) subaccounts ->
                  selection feasibility sa amt = None) ->
  forall nbl s,
    subaccount_loop rd feasibility year subaccounts nbl s = (Ok nbl, s).
Proof.
  induction subaccounts as [|[sa amt] rest IH]; intros Hnone nbl s;
    [reflexivity|].
  cbn [subaccount_loop]. rewrite (Hnone sa amt (or_introl eq_refl)).
  apply IH. intros sa' amt' H. apply Hnone. now right.
Qed.

Lemma run_without_selection {World : Type} (feasibility parcels cand : DataFrame)
      (st : Program.Settings) (year : Z) (rd : Developer World)
      (s : Sim World) :
  candidates feasibility parcels st = Ok cand ->
  (forall sa amt, In (sa, amt) (iter_subaccounts (account s)) ->
                  selection cand sa amt = None) ->
  run_subsidized_developer feasibility parcels st year rd s = (Ok tt, s).
Proof.
  intros Hcand Hnone. unfold run_subsidized_developer, bind, lift, get.
  rewrite Hcand. rewrite (loop_without_selection rd cand year _ Hnone).
  reflexivity.
Qed.

Lemma run_raises_with_candidates {World : Type}
      (feasibility parcels : DataFrame) (st : Program.Settings) (year : Z)
      (rd : Developer World) (s : Sim World) (e : error) :
  candidates feasibility parcels st = Err e ->
  run_subsidized_developer feasibility parcels st year rd s = (Err e, s).
Proof.
  intro H. unfold run_subsidized_developer, bind, lift. rewrite H.
  reflexivity.
Qed.

(** X8: Before any revenue is posted the allocator can fund nothing: on a ledger
    without transactions a call whose candidate table can be computed
    returns normally and leaves the whole state as it was, the developer
    not being called. *)
Theorem allocator_without_funds_changes_nothing :
  forall (World : Type) (feasibility parcels cand : DataFrame)
         (st : Program.Settings) (year : Z) (rd : Developer World)
         (s : Sim World),
    candidates feasibility parcels st = Ok cand ->
    transactions (account s) = [] ->
    run_subsidized_developer feasibility parcels st year rd s = (Ok tt, s).
Proof.
  intros World feasibility parcels cand st year rd s Hcand Hempty.
  apply (run_without_selection _ _ cand); [exact Hcand|].
  unfold iter_subaccounts, all_subaccounts. rewrite Hempty.
  intros sa amt [].
Qed.

Lemma selection_of_no_candidate (feasibility : DataFrame)
      (subacct amount : fval) :
  rows feasibility = [] -> selection feasibility subacct amount = None.
Proof.
  intro H. unfold selection, len, select. simpl. rewrite H. reflexivity.
Qed.

(** X9: When no proposal loses money (no [max_profit] is a negative number),
    the allocator changes nothing, whatever the ledger holds: the state
    after the call is the state before it. *)
Theorem allocator_without_losing_proposal_changes_nothing :
  forall (World : Type) (feasibility parcels : DataFrame)
         (st : Program.Settings) (year : Z) (rd : Developer World)
         (s : Sim World),
    (forall r0, In r0 (rows feasibility) ->
                flt (cell r0 "max_profit") (Fin 0) = false) ->
    snd (run_subsidized_developer feasibility parcels st year rd s) = s.
Proof.
  intros World feasibility parcels st year rd s Hnone.
  destruct (candidates feasibility parcels st) as [cand|e] eqn:Hcand.
  - rewrite (run_without_selection _ _ cand); [reflexivity|exact Hcand|].
    intros sa amt _. apply selection_of_no_candidate.
    destruct (rows cand) as [|r l] eqn:Hrows; [reflexivity|].
    destruct (candidates_rows feasibility parcels cand st r Hcand)
      as (ave & r0 & _ & Hr0 & _ & Hneg & _);
      [rewrite Hrows; now left|].
    destruct (negative_is_finite _ Hneg) as (q & Hq & Hlt).
    specialize (Hnone r0 Hr0). rewrite Hq in Hnone.
    apply flt_Fin in Hlt. congruence.
  - rewrite (run_raises_with_candidates _ _ _ _ _ _ e Hcand). reflexivity.
Qed.

(** ** The allocator: what makes it raise *)

Lemma has_column_assign_eq (df : DataFrame) (c c' : string)
      (f : Row -> fval) :
  has_column (assign c' f df) c = has_column df c || String.eqb c c'.
Proof.
  unfold assign, has_column at 1. simpl.
  destruct (has_column df c') eqn:E.
  - fold (has_column df c).
    destruct (String.eqb c c') eqn:Ec; [|rewrite orb_false_r; reflexivity].
    apply String.eqb_eq in Ec. subst. rewrite E. reflexivity.
  - rewrite existsb_app. simpl. rewrite orb_false_r. reflexivity.
Qed.

(** The columns of the table the receiving filter is evaluated on: those of
    the feasibility table and the three the allocator has computed. *)
Lemma has_column_computed (df : DataFrame) (c : string)
      (f1 f2 f3 : Row -> fval) (p1 p2 : Row -> bool) :
  has_column
    (assign "subsidy_per_unit" f3
       (select p2
          (assign "residential_units" f2
             (assign "ave_sqft_per_unit" f1
                (select p1 (replace_inf df)))))) c
  = has_column df c
    || String.eqb c "ave_sqft_per_unit"
    || String.eqb c "residential_units"
    || String.eqb c "subsidy_per_unit".
Proof.
  rewrite has_column_assign_eq.
  change (has_column (select p2 ?d) c) with (has_column d c).
  rewrite !has_column_assign_eq. reflexivity.
Qed.

(** X10: When the feasibility table lacks one of the columns [max_profit],
    [residential_sqft] and [total_residential_units], or the parcels lack
    [ave_sqft_per_unit], the allocator raises before it calls the developer
    or books anything: the state is as it was.  A missing [max_profit] is
    the first thing it meets. *)
Theorem allocator_raises_on_missing_column :
  forall (World : Type) (feasibility parcels : DataFrame)
         (st : Program.Settings) (year : Z) (rd : Developer World)
         (s : Sim World),
    has_column feasibility "max_profit" = false
    \/ has_column parcels "ave_sqft_per_unit" = false
    \/ has_column feasibility "residential_sqft" = false
    \/ has_column feasibility "total_residential_units" = false ->
    exists e,
      run_subsidized_developer feasibility parcels st year rd s = (Err e, s)
      /\ (has_column feasibility "max_profit" = false ->
          e = AttributeError "max_profit").
Proof.
  intros World feasibility parcels st year rd s H.
  assert (Hc : exists e,
             candidates feasibility parcels st = Err e
             /\ (has_column feasibility "max_profit" = false ->
                 e = AttributeError "max_profit")).
  { unfold candidates, attr.
    change (has_column (replace_inf feasibility) "max_profit")
      with (has_column feasibility "max_profit").
    destruct (has_column feasibility "max_profit") eqn:H1;
      [|eexists; split; reflexivity].
    destruct (has_column parcels "ave_sqft_per_unit") eqn:H2;
      [|eexists; split; [reflexivity | discriminate]].
    rewrite has_column_assign_eq.
    change (has_column (select ?p (replace_inf feasibility))
                       "residential_sqft")
      with (has_column feasibility "residential_sqft").
    destruct (has_column feasibility "residential_sqft") eqn:H3;
      [|eexists; split; [reflexivity | discriminate]].
    simpl orb. cbv iota.
    rewrite !has_column_assign_eq.
    change (has_column (select ?p (replace_inf feasibility))
                       "total_residential_units")
      with (has_column feasibility "total_residential_units").
    destruct (has_column feasibility "total_residential_units") eqn:H4;
      [|eexists; split; [reflexivity | discriminate]].
    exfalso. destruct H as [H | [H | [H | H]]]; discriminate. }
  destruct Hc as (e & Hc & He). exists e. split; [|exact He].
  apply run_raises_with_candidates. exact Hc.
Qed.

(** X11: The receiving filter is evaluated on the columns of the feasibility
    table and the three computed ones ([ave_sqft_per_unit],
    [residential_units], [subsidy_per_unit]); the subaccount expression can
    also name [regional].  When one of them names anything else, the
    allocator raises before it calls the developer or books anything. *)
Theorem allocator_raises_on_unknown_name :
  forall (World : Type) (feasibility parcels : DataFrame)
         (st : Program.Settings) (year : Z) (rd : Developer World)
         (s : Sim World) (n : string),
    has_column feasibility n = false ->
    ~ In n ["ave_sqft_per_unit"; "residential_units"; "subsidy_per_unit"] ->
    (exists f, Program.receiving_buildings_filter st = Some f
               /\ In n (bnames f))
    \/ (In n (nnames (Program.sending_buildings_subaccount_def st))
        /\ n <> "regional") ->
    exists e,
      run_subsidized_developer feasibility parcels st year rd s = (Err e, s).
Proof.
  intros World feasibility parcels st year rd s n Hcol Hnot Hname.
  assert (Hneq : String.eqb n "ave_sqft_per_unit" = false
                 /\ String.eqb n "residential_units" = false
                 /\ String.eqb n "subsidy_per_unit" = false).
  { repeat split; apply String.eqb_neq; intros ->; apply Hnot; simpl; tauto. }
  destruct Hneq as (N1 & N2 & N3).
  assert (Hc : exists e, candidates feasibility parcels st = Err e).
  { unfold candidates.
    destruct (attr (replace_inf feasibility) "max_profit");
      [|eexists; reflexivity].
    destruct (attr parcels "ave_sqft_per_unit") as [ave|];
      [|eexists; reflexivity].
    match goal with |- context [attr ?d "residential_sqft"] =>
      destruct (attr d "residential_sqft") end; [|eexists; reflexivity].
    match goal with |- context [attr ?d "total_residential_units"] =>
      destruct (attr d "total_residential_units") end;
      [|eexists; reflexivity].
    match goal with |- context [assign "subsidy_per_unit" ?f ?d] =>
      set (f4 := assign "subsidy_per_unit" f d) end.
    assert (H4 : has_column f4 n = false).
    { unfold f4. rewrite has_column_computed, Hcol, N1, N2, N3.
      reflexivity. }
    destruct Hname as [(f & Hf & Hin) | (Hin & Hreg)].
    - rewrite Hf. unfold query.
      destruct (resolve_missing f4 _ n Hin H4) as (n' & _ & Hr).
      rewrite Hr. eexists. reflexivity.
    - assert (Hsub : forall f5, columns f5 = columns f4 ->
                exists e,
                  (let? subaccount :=
                     eval (assign "regional" (fun _ => Fin 1) f5)
                          (Program.sending_buildings_subaccount_def st) in
                   Ok (assign "subaccount"
                         (fun r => neval r
                            (Program.sending_buildings_subaccount_def st))
                         (assign "regional" (fun _ => Fin 1) f5)))
                  = Err e).
      { intros f5 Hcols.
        assert (H5 : has_column (assign "regional" (fun _ => Fin 1) f5) n
                     = false).
        { rewrite has_column_assign_eq. unfold has_column. rewrite Hcols.
          fold (has_column f4 n). rewrite H4.
          apply String.eqb_neq in Hreg. rewrite Hreg. reflexivity. }
        unfold eval.
        destruct (resolve_missing _ _ n Hin H5) as (n' & _ & Hr).
        rewrite Hr. eexists. reflexivity. }
      destruct (Program.receiving_buildings_filter st) as [f|].
      + destruct (query f4 f) as [f5|] eqn:Hq; [|eexists; reflexivity].
        apply (Hsub f5). exact (query_columns _ _ _ Hq).
      + apply (Hsub f4). reflexivity. }
  destruct Hc as (e & Hc). exists e.
  apply run_raises_with_candidates. exact Hc.
Qed.

(** ** The allocator: the calls of the developer *)

Lemma selection_nonempty (feasibility df : DataFrame)
      (subacct amount : fval) :
  selection feasibility subacct amount = Some df -> rows df <> [].
Proof.
  unfold selection, len.
  destruct (Nat.eqb (List.length (rows (select _ feasibility))) 0) eqn:E1;
    [discriminate|].
  destruct (Nat.eqb (searchsorted _ amount) 0) eqn:E2; [discriminate|].
  intros [= <-]. simpl rows.
  apply Nat.eqb_neq in E1. apply Nat.eqb_neq in E2.
  pose proof (Permutation_length
                (sort_rows_desc_perm "subsidy_per_unit"
                   (rows (select (fun r => feq (cell r "subaccount") subacct)
                                 feasibility)))) as Hlen.
  unfold sort_desc in *. simpl rows in *.
  destruct (sort_rows_desc _ _) as [|r l]; [simpl in Hlen; congruence|].
  destruct (searchsorted _ amount); [congruence | discriminate].
Qed.

Lemma selected_calls_length (feasibility : DataFrame)
      (subaccounts : list (fval * fval)) :
  (List.length (selected_calls feasibility subaccounts)
   <= List.length subaccounts)%nat.
Proof.
  induction subaccounts as [|sa rest IH]; simpl; [lia|].
  rewrite length_app.
  destruct (selection feasibility (fst sa) (snd sa)); simpl; lia.
Qed.

(** X12: The developer is called at most once for every subaccount the ledger
    reports, always for the residential form and never with an empty table
    of candidates. *)
Theorem developer_called_once_per_subaccount_never_empty :
  forall (World : Type) (feasibility parcels : DataFrame)
         (st : Program.Settings) (year : Z) (rd : Developer World)
         (s : Sim World),
    let calls :=
      calls_of_run s (snd (run_subsidized_developer feasibility parcels st
                                                    year rd s)) in
    (List.length calls <= List.length (all_subaccounts (account s)))%nat
    /\ Forall (fun call => form call = "residential"
                           /\ rows (table call) <> []) calls.
Proof.
  intros World feasibility parcels st year rd s calls. subst calls.
  pose proof (run_subsidized_developer_effect feasibility parcels st year
                                              rd s) as H.
  cbv zeta in H.
  destruct (candidates feasibility parcels st) as [cand|e].
  - destruct H as (ok & b & c & _ & Hc & Heff & _).
    unfold calls_of_run. rewrite Hc, skipn_length_app. split.
    + destruct (loop_effect_prefix _ _ _ _ _ _ _ Heff) as [k Hk].
      rewrite Hk, length_firstn.
      pose proof (selected_calls_length cand
                    (iter_subaccounts (account s))) as Hl.
      unfold iter_subaccounts in Hl at 2. rewrite length_map in Hl. lia.
    + apply loop_effect_calls in Heff.
      eapply Forall_impl; [|exact Heff].
      intros call (Hf & sa & amt & _ & Hsel). split; [exact Hf|].
      exact (selection_nonempty _ _ _ _ Hsel).
  - rewrite H. simpl. unfold calls_of_run. rewrite skipn_length_self.
    split; [simpl; lia | constructor].
Qed.


(** ** The allocator: what is booked, and what is not *)

Lemma book_no_building {World : Type} (nb : DataFrame) (subacct : fval)
      (year : Z) (s : Sim World) :
  rows nb = [] -> book_buildings nb subacct year s = (Ok tt, s).
Proof. intro H. unfold book_buildings. rewrite H. reflexivity. Qed.

Lemma loop_builds_nothing {World : Type} (rd : Developer World)
      (feasibility : DataFrame) (year : Z) :
  builds_nothing rd ->
  forall (subaccounts : list (fval * fval)) (nbl : list DataFrame)
         (s : Sim World),
    Forall (fun d => rows d = []) nbl ->
    exists l,
      fst (subaccount_loop rd feasibility year subaccounts nbl s) = Ok l
      /\ Forall (fun d => rows d = []) l
      /\ account (snd (subaccount_loop rd feasibility year subaccounts
                                       nbl s)) = account s
      /\ summary (snd (subaccount_loop rd feasibility year subaccounts
                                       nbl s)) = summary s.
Proof.
  intros Hrd subaccounts.
  induction subaccounts as [|[sa amt] rest IH]; intros nbl s Hnbl.
  - exists nbl. simpl. auto.
  - destruct (selection feasibility sa amt) as [df|] eqn:Hsel.
    + pose proof (Hrd (world s) (mkFormFrame "residential" df) year) as Hb.
      destruct (rd (world s) (mkFormFrame "residential" df) year)
        as [w [nb|]] eqn:Hcall; simpl in Hb;
        set (s1 := mkSim (account s) w (summary s)
                         (developer_calls s
                          ++ [mkFormFrame "residential" df])).
      * assert (Hstep :
          subaccount_loop rd feasibility year ((sa, amt) :: rest) nbl s
          = subaccount_loop rd feasibility year rest (nbl ++ [nb]) s1).
        { cbn [subaccount_loop]. rewrite Hsel.
          unfold bind, run_developer. rewrite Hcall.
          rewrite (book_no_building nb sa year _ Hb). reflexivity. }
        rewrite Hstep.
        assert (Hnbl' : Forall (fun d => rows d = []) (nbl ++ [nb])).
        { apply Forall_app. split; [exact Hnbl|].
          constructor; [exact Hb | constructor]. }
        destruct (IH (nbl ++ [nb]) s1 Hnbl') as (l' & H1 & H2 & H3 & H4).
        exists l'. auto.
      * assert (Hstep :
          subaccount_loop rd feasibility year ((sa, amt) :: rest) nbl s
          = subaccount_loop rd feasibility year rest nbl s1).
        { cbn [subaccount_loop]. rewrite Hsel.
          unfold bind, run_developer. rewrite Hcall. reflexivity. }
        rewrite Hstep.
        destruct (IH nbl s1 Hnbl) as (l' & H1 & H2 & H3 & H4).
        exists l'. auto.
    + cbn [subaccount_loop]. rewrite Hsel. apply IH, Hnbl.
Qed.

Lemma total_len_of_empty_frames (l : list DataFrame) (n : nat) :
  Forall (fun d => rows d = []) l ->
  fold_left (fun x y => (x + len y)%nat) l n = n.
Proof.
  intro H. revert n. induction H as [|d l Hd _ IH]; intro n; simpl;
    [reflexivity|].
  rewrite IH. unfold len. rewrite Hd. simpl. lia.
Qed.

(** X14: Candidates that are selected but not built cost nothing: when the
    developer builds no building, the call returns normally with the ledger
    and the summary as they were. *)
Theorem unbuilt_candidates_cost_nothing :
  forall (World : Type) (feasibility parcels cand : DataFrame)
         (st : Program.Settings) (year : Z) (rd : Developer World)
         (s : Sim World),
    candidates feasibility parcels st = Ok cand ->
    builds_nothing rd ->
    let res := run_subsidized_developer feasibility parcels st year rd s in
    fst res = Ok tt
    /\ account (snd res) = account s
    /\ summary (snd res) = summary s.
Proof.
  intros World feasibility parcels cand st year rd s Hcand Hrd res.
  subst res. unfold run_subsidized_developer, bind, lift, get.
  rewrite Hcand.
  destruct (loop_builds_nothing rd cand year Hrd
              (iter_subaccounts (account s)) [] s (Forall_nil _))
    as (l & H1 & H2 & H3 & H4).
  destruct (subaccount_loop rd cand year (iter_subaccounts (account s)) [] s)
    as [r s1]. simpl in H1, H3, H4. subst r.
  rewrite (total_len_of_empty_frames l 0 H2). simpl. auto.
Qed.

Lemma loop_effect_Forall {World : Type} (rd : Developer World)
      (feasibility : DataFrame) (year : Z) (P : Transaction -> Prop)
      ok subaccounts b c :
  (forall sa amt df booked,
      selection feasibility sa amt = Some df ->
      built_by rd year df sa booked -> Forall P booked) ->
  loop_effect rd feasibility year ok subaccounts b c ->
  Forall P b.
Proof.
  intros HP. induction 1 as [|ok sa amt rest b c Hsel _ IH
                             |ok sa amt rest df booked b c Hsel Hb _ IH
                             |sa amt rest df Hsel].
  - constructor.
  - exact IH.
  - apply Forall_app. split; [exact (HP _ _ _ _ Hsel Hb) | exact IH].
  - constructor.
Qed.

Lemma built_by_expenditures {World : Type} (rd : Developer World)
      (feasibility df : DataFrame) (year : Z) (sa amt : fval)
      (booked : list Transaction) :
  builds_from_candidates rd ->
  Forall priced (rows feasibility) ->
  selection feasibility sa amt = Some df ->
  built_by rd year df sa booked ->
  Forall (expenditure year) booked.
Proof.
  intros Hrd Hp Hsel Hb.
  destruct (selection_within_amount _ _ _ _ Hp Hsel) as (Hdf & _ & _).
  destruct Hb as [-> | (w & w' & nb & Hcall & ->)]; [constructor|].
  destruct (Hrd _ _ _ _ _ Hcall) as (picked & rest & Hperm & Hmp).
  simpl in Hperm.
  assert (Hpicked : Forall priced picked).
  { pose proof (Permutation_Forall (Permutation_sym Hperm) Hdf) as Hall.
    apply Forall_app in Hall. tauto. }
  apply Forall_forall. intros t Ht. apply in_map_iff in Ht.
  destruct Ht as (r & <- & Hr).
  unfold expenditure. simpl.
  split; [|split; [reflexivity | split; [reflexivity | discriminate]]].
  apply (in_map (fun r => cell r "max_profit")) in Hr.
  rewrite Hmp in Hr. apply in_map_iff in Hr.
  destruct Hr as (p & Hp' & Hpin).
  rewrite Forall_forall in Hpicked.
  destruct (Hpicked p Hpin) as (q & Hq & Hlt).
  exists q. split; [congruence | exact Hlt].
Qed.

(** X15: The allocator only spends: with a developer that builds only candidates
    it was handed, every transaction booked during a call has a negative
    finite amount, the description of a subsidized building, the year of
    the call and the identifier of a building. *)
Theorem allocator_books_only_expenditures :
  forall (World : Type) (feasibility parcels : DataFrame)
         (st : Program.Settings) (year : Z) (rd : Developer World)
         (s : Sim World),
    builds_from_candidates rd ->
    Forall (expenditure year)
           (booked_in_run
              s (snd (run_subsidized_developer feasibility parcels st year
                                               rd s))).
Proof.
  intros World feasibility parcels st year rd s Hrd.
  pose proof (run_subsidized_developer_effect feasibility parcels st year
                                              rd s) as H.
  cbv zeta in H.
  destruct (candidates feasibility parcels st) as [cand|e] eqn:Hcand.
  - destruct H as (ok & b & c & Hb & _ & Heff & _).
    unfold booked_in_run. rewrite Hb, skipn_length_app.
    apply (loop_effect_Forall rd cand year (expenditure year) ok
             (iter_subaccounts (account s)) b c); [|exact Heff].
    intros sa amt df booked Hsel Hbuilt.
    exact (built_by_expenditures rd cand df year sa amt booked Hrd
             (candidates_priced _ _ _ _ Hcand) Hsel Hbuilt).
  - rewrite H. simpl. unfold booked_in_run. rewrite skipn_length_self.
    constructor.
Qed.





(** ** The allocator: who can be a candidate *)

Lemma cell_set_cell (c c' : string) (v : fval) (r : Row) :
  cell (set_cell c v r) c' = if String.eqb c' c then v else cell r c'.
Proof.
  unfold cell, set_cell. simpl. destruct (String.eqb c' c); reflexivity.
Qed.

Lemma neval_set_cell (c : string) (v : fval) (r : Row) (e : nexpr) :
  ~ In c (nnames e) -> neval (set_cell c v r) e = neval r e.
Proof.
  induction e as [c'|q|a IHa b IHb|a IHa b IHb|a IHa b IHb|a IHa b IHb];
    simpl; intro H;
    try (rewrite IHa, IHb;
         [reflexivity | intro; apply H, in_or_app; now right
                      | intro; apply H, in_or_app; now left]);
    try reflexivity.
  rewrite cell_set_cell.
  destruct (String.eqb c' c) eqn:E; [|reflexivity].
  apply String.eqb_eq in E. subst. exfalso. apply H. now left.
Qed.

Lemma beval_set_cell (c : string) (v : fval) (r : Row) (e : bexpr) :
  ~ In c (bnames e) -> beval (set_cell c v r) e = beval r e.
Proof.
  induction e as [op a b|p IHp q IHq|p IHp q IHq|p IHp]; simpl; intro H.
  - rewrite !neval_set_cell;
      [reflexivity | intro; apply H, in_or_app; now right
                   | intro; apply H, in_or_app; now left].
  - rewrite IHp, IHq;
      [reflexivity | intro; apply H, in_or_app; now right
                   | intro; apply H, in_or_app; now left].
  - rewrite IHp, IHq;
      [reflexivity | intro; apply H, in_or_app; now right
                   | intro; apply H, in_or_app; now left].
  - rewrite IHp; [reflexivity | exact H].
Qed.

(** Every row of the candidate table passed the receiving filter, when the
    settings have one, before the columns [regional] and [subaccount] were
    assigned. *)
Lemma candidates_rows_received (feasibility parcels cand : DataFrame)
      (st : Program.Settings) (f : bexpr) (r : Row) :
  candidates feasibility parcels st = Ok cand ->
  Program.receiving_buildings_filter st = Some f ->
  In r (rows cand) ->
  exists r4 v,
    r = set_cell "subaccount" v (set_cell "regional" (Fin 1) r4)
    /\ beval r4 f = true.
Proof.
  unfold candidates. intros H Hf Hin. rewrite Hf in H.
  destruct (attr (replace_inf feasibility) "max_profit"); [|discriminate].
  destruct (attr parcels "ave_sqft_per_unit") as [ave|]; [|discriminate].
  match type of H with context [attr ?d "residential_sqft"] =>
    destruct (attr d "residential_sqft") end; [|discriminate].
  match type of H with context [attr ?d "total_residential_units"] =>
    destruct (attr d "total_residential_units") end; [|discriminate].
  match type of H with context [query ?d f] =>
    destruct (query d f) as [f5|] eqn:Hq end; [|discriminate].
  apply query_rows in Hq.
  destruct (eval _ _); [|discriminate]. injection H as <-.
  simpl in Hin.
  apply in_map_iff in Hin. destruct Hin as (r5 & <- & Hin).
  apply in_map_iff in Hin. destruct Hin as (r4 & <- & Hin).
  rewrite Hq in Hin. apply filter_In in Hin. destruct Hin as [_ Hpass].
  exists r4. eexists. split; [reflexivity | exact Hpass].
Qed.

(** X17: With a receiving filter in the settings, every candidate handed to the
    developer lies in the receiving zone: it satisfies the filter (which
    names neither [regional] nor [subaccount], the two columns assigned
    after the filter is applied). *)
Theorem built_candidates_pass_receiving_filter :
  forall (World : Type) (feasibility parcels : DataFrame)
         (st : Program.Settings) (year : Z) (rd : Developer World)
         (s : Sim World) (f : bexpr) (call : FormFrame) (r : Row),
    Program.receiving_buildings_filter st = Some f ->
    ~ In "regional" (bnames f) ->
    ~ In "subaccount" (bnames f) ->
    In call (calls_of_run
               s (snd (run_subsidized_developer feasibility parcels st year
                                                rd s))) ->
    In r (rows (table call)) ->
    beval r f = true.
Proof.
  intros World feasibility parcels st year rd s f call r Hf Hreg Hsub
         Hcall Hr.
  destruct (called_rows feasibility parcels st year rd s call r Hcall Hr)
    as (cand & sa & amt & Hcand & _ & _ & Hin & _).
  destruct (candidates_rows_received _ _ _ _ f r Hcand Hf Hin)
    as (r4 & v & -> & Hpass).
  rewrite (beval_set_cell "subaccount" _ _ f Hsub).
  rewrite (beval_set_cell "regional" _ _ f Hreg). exact Hpass.
Qed.

Lemma series_at_known (ser : Series) (i : Z) :
  series_at ser i <> NaN -> In i (map fst ser).
Proof.
  induction ser as [|[j v] ser IH]; simpl; [congruence|].
  destruct (Z.eqb i j) eqn:E.
  - intros _. left. apply Z.eqb_eq in E. congruence.
  - intro H. right. apply IH, H.
Qed.

Lemma inf_to_nan_finite (v : fval) :
  inf_to_nan v <> NaN -> is_finite v = true.
Proof. destruct v; simpl; congruence. Qed.

(** X18: A proposal with missing data is never a candidate: every candidate
    handed to the developer comes from a feasibility row whose residential
    square footage and existing unit count are finite numbers, on a parcel
    that is in the parcels table with an average unit size that is not
    missing. *)
Theorem built_candidates_have_their_data :
  forall (World : Type) (feasibility parcels : DataFrame)
         (st : Program.Settings) (year : Z) (rd : Developer World)
         (s : Sim World) (call : FormFrame) (r : Row),
    In call (calls_of_run
               s (snd (run_subsidized_developer feasibility parcels st year
                                                rd s))) ->
    In r (rows (table call)) ->
    exists r0 p,
      In r0 (rows feasibility)
      /\ idx r0 = idx r
      /\ is_finite (cell r0 "residential_sqft") = true
      /\ is_finite (cell r0 "total_residential_units") = true
      /\ In p (rows parcels)
      /\ idx p = idx r
      /\ cell r "ave_sqft_per_unit" <> NaN.
Proof.
  intros World feasibility parcels st year rd s call r Hcall Hr.
  destruct (called_rows feasibility parcels st year rd s call r Hcall Hr)
    as (cand & sa & amt & Hcand & _ & _ & Hin & _).
  destruct (candidates_rows feasibility parcels cand st r Hcand Hin)
    as (ave & r0 & Have & Hr0 & -> & _ & Hgt).
  destruct (candidate_row_cells
              ave (Program.sending_buildings_subaccount_def st) r0)
    as (Hidx & _ & Hsq & Hav & Hun & _).
  set (r := candidate_row ave (Program.sending_buildings_subaccount_def st)
                          r0) in *.
  assert (Htot : cell r "total_residential_units"
                 = inf_to_nan (cell r0 "total_residential_units"))
    by exact (cell_replace_inf r0 "total_residential_units").
  unfold fgt in Hgt.
  pose proof (flt_not_nan_l _ _ Hgt) as Ht.
  pose proof (flt_not_nan_r _ _ Hgt) as Hu.
  rewrite Htot in Ht. rewrite Hun in Hu.
  assert (Hsqa : cell r "residential_sqft" <> NaN
                 /\ cell r "ave_sqft_per_unit" <> NaN).
  { destruct (cell r "residential_sqft") as [a| | |],
             (cell r "ave_sqft_per_unit") as [a'| | |];
      simpl in Hu; try (split; congruence); exfalso; apply Hu; reflexivity. }
  destruct Hsqa as [Hs Ha].
  assert (Hp : exists p, In p (rows parcels) /\ idx p = idx r0).
  { rewrite Hav in Ha. apply series_at_known in Ha.
    unfold attr in Have. destruct (has_column parcels _); [|discriminate].
    injection Have as <-. rewrite map_map in Ha. simpl in Ha.
    apply in_map_iff in Ha. destruct Ha as (p & Hp & Hpin).
    exists p. split; [exact Hpin | exact Hp]. }
  destruct Hp as (p & Hpin & Hpidx).
  exists r0, p. split; [exact Hr0|]. split; [symmetry; exact Hidx|].
  split; [apply inf_to_nan_finite; rewrite <- Hsq; exact Hs|].
  split; [apply inf_to_nan_finite; exact Ht|].
  split; [exact Hpin|]. split; [congruence | exact Ha].
Qed.

(** ** Subsidized buildings and the VMT fee *)

Lemma run_summary_effect {World : Type} (feasibility parcels : DataFrame)
      (st : Program.Settings) (year : Z) (rd : Developer World)
      (s : Sim World) :
  let res := run_subsidized_developer feasibility parcels st year rd s in
  summary (snd res) = summary s
  \/ exists nb,
      summary (snd res)
      = add_parcel_output (assign "subsidized" (fun _ => Fin 1) nb)
                          (summary s).
Proof.
  intro res. subst res. unfold run_subsidized_developer.
  destruct (candidates feasibility parcels st) as [cand|e];
    [|left; reflexivity].
  unfold bind, lift, get.
  destruct (subaccount_loop_effect rd cand year
              (iter_subaccounts (account s)) [] s)
    as (ok & b & c & (_ & _ & Hs & _) & _ & _).
  destruct (subaccount_loop rd cand year (iter_subaccounts (account s)) [] s)
    as [[nbl|e] s1]; simpl in Hs.
  - destruct (Nat.eqb _ 0); unfold ret, modify; simpl.
    + left. exact Hs.
    + right. eexists. rewrite Hs. reflexivity.
  - left. exact Hs.
Qed.

Lemma add_columns_keeps (new cs : list string) (c : string) :
  In c cs -> In c (add_columns cs new).
Proof.
  unfold add_columns. revert cs.
  induction new as [|n new IH]; intros cs H; simpl; [exact H|].
  apply IH. destruct (existsb (String.eqb n) cs); [exact H|].
  apply in_or_app. now left.
Qed.

Lemma add_columns_adds (new cs : list string) (c : string) :
  In c new -> In c (add_columns cs new).
Proof.
  unfold add_columns. revert cs.
  induction new as [|n new IH]; intros cs H; simpl; [destruct H|].
  destruct H as [-> | H]; [|apply IH, H].
  apply (add_columns_keeps new).
  destruct (existsb (String.eqb c) cs) eqn:E.
  - apply existsb_exists in E. destruct E as (x & Hx & E).
    apply String.eqb_eq in E. subst. exact Hx.
  - apply in_or_app. right. now left.
Qed.

Lemma add_parcel_output_rows (nb : DataFrame) (s : Summary) :
  rows (parcel_output (add_parcel_output nb s))
  = rows (parcel_output s) ++ rows nb.
Proof.
  unfold add_parcel_output, pd_concat. simpl. rewrite app_nil_r.
  reflexivity.
Qed.

Lemma add_parcel_output_columns (nb : DataFrame) (s : Summary)
      (c : string) :
  has_column (parcel_output s) c = true ->
  has_column (parcel_output (add_parcel_output nb s)) c = true.
Proof.
  rewrite !has_column_In. unfold add_parcel_output, pd_concat. simpl.
  intro H. apply add_columns_keeps. apply add_columns_adds. exact H.
Qed.

Lemma subsidized_row_not_charged (year years_per_iter : Z) (r : Row) :
  cell r "subsidized" = Fin 1 ->
  beval r (vmt_filter year years_per_iter) = false.
Proof.
  intro H. unfold vmt_filter. simpl. rewrite H.
  apply andb_false_r.
Qed.

(** X19: The buildings the allocator adds to the parcel output are tagged
    subsidized, and a building tagged subsidized is never charged the VMT
    fee: a call of the allocator leaves the buildings [calculate_vmt_fees]
    charges, in any window of years, as they were, and so, on a parcel
    output that has the four columns the fee reads, the whole effect of
    [calculate_vmt_fees]. *)
Theorem subsidized_buildings_owe_no_vmt_fee :
  forall (World : Type) (feasibility parcels : DataFrame)
         (st : Program.Settings) (year : Z) (rd : Developer World)
         (s : Sim World) (settings : AcctSettings)
         (fee_year years_per_iter : Z) (c : Coffer),
    has_column (parcel_output (summary s)) "year_built" = true ->
    has_column (parcel_output (summary s)) "subsidized" = true ->
    has_column (parcel_output (summary s)) "vmt_res_cat" = true ->
    has_column (parcel_output (summary s)) "residential_units" = true ->
    let s' := snd (run_subsidized_developer feasibility parcels st year
                                            rd s) in
    fee_base fee_year years_per_iter (summary s')
    = fee_base fee_year years_per_iter (summary s)
    /\ calculate_vmt_fees settings fee_year (summary s') years_per_iter c
       = calculate_vmt_fees settings fee_year (summary s) years_per_iter c.
Proof.
  intros World feasibility parcels st year rd s settings fy ypi c
         H1 H2 H3 H4 s'.
  assert (Hbase : fee_base fy ypi (summary s') = fee_base fy ypi (summary s)
                  /\ forall col,
                      has_column (parcel_output (summary s)) col = true ->
                      has_column (parcel_output (summary s')) col = true).
  { subst s'.
    destruct (run_summary_effect feasibility parcels st year rd s)
      as [Hs | [nb Hs]]; rewrite Hs.
    - split; [reflexivity | auto].
    - split; [|intros col; apply add_parcel_output_columns].
      unfold fee_base. rewrite add_parcel_output_rows, filter_app.
      rewrite (filter_none _ (rows (assign "subsidized" _ nb)));
        [apply app_nil_r|].
      intros r Hr. unfold assign in Hr. simpl in Hr.
      apply in_map_iff in Hr. destruct Hr as (r' & <- & _).
      apply subsidized_row_not_charged. reflexivity. }
  destruct Hbase as [Hbase Hcols]. split; [exact Hbase|].
  rewrite (calculate_vmt_fees_normal settings fy (summary s') ypi c)
    by (apply Hcols; assumption).
  rewrite (calculate_vmt_fees_normal settings fy (summary s) ypi c)
    by assumption.
  rewrite Hbase. reflexivity.
Qed.

(** ** Instances of the further properties *)

Lemma add_obag_funds_witness :
  let res := add_obag_funds (Example.tax_settings Example.has_units)
                            2015 5 coffer in
  fst res = Ok tt
  /\ prop_tax_acct (snd res) = prop_tax_acct coffer
  /\ vmt_fee_acct (snd res) = vmt_fee_acct coffer
  /\ (exists t,
         transactions (obag_acct (snd res))
         = transactions (obag_acct coffer) ++ [t]
         /\ subaccount t = Fin 1
         /\ Ledger.year (metadata t) = 2015%Z)
  /\ total_transactions_by_subacct (obag_acct (snd res)) (Fin 1)
     = Fin (0 + Program.total_amount
                  (obag_settings (Example.tax_settings Example.has_units))
                * inject_Z 5).
Proof.
  apply (add_obag_funds_raises_regional_balance
           (Example.tax_settings Example.has_units) 2015 5 coffer 0).
  reflexivity.
Defined.

Lemma regional_candidates_witness :
  cell (nth 0 (rows Scenario.regional_candidate_table) Example.no_row)
       "subaccount" = Fin 1
  /\ exists subacct amount,
      In (subacct, amount)
         (iter_subaccounts
            (obag_acct
               (snd (add_obag_funds (Example.tax_settings Example.has_units)
                                    2015 5 coffer))))
      /\ feq (cell (nth 0 (rows Scenario.regional_candidate_table)
                        Example.no_row) "subaccount") subacct = true.
Proof.
  apply (regional_candidates_meet_obag_funds
           Example.feasibility Example.parcels
           Scenario.regional_candidate_table Scenario.regional_program).
  - reflexivity.
  - vm_compute. reflexivity.
  - vm_compute. left. reflexivity.
Defined.

Lemma one_transaction_per_subaccount_witness :
  let posted := posted_by_tax Example.buildings
                              (Example.tax_settings Example.has_units) 2015
                              Example.prop_tax in
  let key := fun r => cell r "zone" in
  transactions (snd (tax_buildings Example.buildings
                                   (Example.tax_settings Example.has_units)
                                   2015 Example.prop_tax))
  = transactions Example.prop_tax ++ posted
  /\ distinct_keys (map subaccount posted)
  /\ StronglySorted asc (map subaccount posted)
  /\ (forall t, In t posted ->
                subaccount t <> NaN
                /\ (exists r, In r (rows (Example.taxed Example.buildings))
                              /\ key r = subaccount t)
                /\ description (metadata t) = "Collecting property tax"
                /\ Ledger.year (metadata t) = 2015%Z)
  /\ (forall r, In r (rows (Example.taxed Example.buildings)) ->
                key r <> NaN ->
                exists t, In t posted /\ feq (key r) (subaccount t) = true).
Proof.
  apply (tax_buildings_one_transaction_per_subaccount
           Example.buildings (Example.taxed Example.buildings)
           (Example.tax_settings Example.has_units) 2015 Example.prop_tax).
  - vm_compute. reflexivity.
  - vm_compute. reflexivity.
Defined.

Lemma tax_of_each_subaccount_witness :
  let t := nth 0 (posted_by_tax Example.buildings
                                (Example.tax_settings Example.has_units)
                                2015 Example.prop_tax)
               Scenario.no_transaction in
  amount t
  = py_sum (map (fun r => neval r (NMul (NCol "residential_units")
                                        (NConst 100)))
                (filter (fun r => feq (cell r "zone") (subaccount t))
                        (rows (Example.taxed Example.buildings)))).
Proof.
  apply (tax_buildings_posts_the_tax_of_each_subaccount
           Example.buildings (Example.taxed Example.buildings)
           (Example.tax_settings Example.has_units) 2015 Example.prop_tax).
  - vm_compute. reflexivity.
  - vm_compute. reflexivity.
  - intros r Hr. vm_compute in Hr.
    destruct Hr as [<- | [<- | [<- | []]]]; vm_compute; reflexivity.
  - vm_compute. left. reflexivity.
Defined.

Lemma missing_subaccount_column_witness :
  exists e,
    tax_buildings Example.buildings Scenario.district_settings 2015
                  Example.prop_tax
    = (Err e, Example.prop_tax)
    /\ (resolve Example.buildings
                (bnames (sending_buildings_filter
                           Scenario.district_settings)) = Ok tt ->
        resolve Example.buildings
                (nnames (sending_buildings_tax Scenario.district_settings))
        = Ok tt ->
        e = KeyError "tpp_id").
Proof.
  apply (tax_buildings_missing_subaccount_column
           Example.buildings Scenario.district_settings 2015
           Example.prop_tax).
  vm_compute. reflexivity.
Defined.

Lemma without_taxable_building_witness :
  tax_buildings Scenario.vacant_buildings
                (Example.tax_settings Example.has_units) 2015
                Example.prop_tax
  = (Ok tt, Example.prop_tax).
Proof.
  apply (tax_buildings_without_taxable_building
           Scenario.vacant_buildings
           (Example.tax_settings Example.has_units) 2015 Example.prop_tax).
  - intros r Hr. vm_compute in Hr.
    destruct Hr as [<- | [<- | []]]; vm_compute; reflexivity.
  - vm_compute. reflexivity.
  - vm_compute. reflexivity.
  - vm_compute. reflexivity.
Defined.

Lemma fees_due_witness :
  let fees := Program.fee_amounts
                (vmt_settings (Example.tax_settings Example.has_units)) in
  let with_fee := filter (fun r => is_finite (fee_due fees r))
                         (fee_base 2015 5 Scenario.new_output) in
  let res := calculate_vmt_fees (Example.tax_settings Example.has_units)
                                2015 Scenario.new_output 5 coffer in
  fst res = Ok tt
  /\ prop_tax_acct (snd res) = prop_tax_acct coffer
  /\ obag_acct (snd res) = obag_acct coffer
  /\ exists t,
      transactions (vmt_fee_acct (snd res))
      = transactions (vmt_fee_acct coffer) ++ [t]
      /\ subaccount t = Fin 1
      /\ Ledger.year (metadata t) = 2015%Z
      /\ amount t = py_sum (map (fee_due fees) with_fee).
Proof.
  apply (calculate_vmt_fees_posts_the_fees_due
           (Example.tax_settings Example.has_units) 2015
           Scenario.new_output 5 coffer).
  - reflexivity.
  - reflexivity.
  - reflexivity.
  - reflexivity.
  - intros r Hr. vm_compute in Hr.
    destruct Hr as [<- | [<- | []]]; [left | right]; vm_compute; reflexivity.
  - vm_compute. discriminate.
Defined.

Lemma without_funds_witness :
  run_subsidized_developer
    Example.feasibility Example.parcels Example.program 2015
    Example.build_all (Example.start Scenario.no_funds)
  = (Ok tt, Example.start Scenario.no_funds).
Proof.
  apply (allocator_without_funds_changes_nothing
           unit Example.feasibility Example.parcels Example.candidate_table
           Example.program 2015 Example.build_all
           (Example.start Scenario.no_funds)).
  - vm_compute. reflexivity.
  - reflexivity.
Defined.

Lemma without_losing_proposal_witness :
  snd (run_subsidized_developer
         Scenario.profitable_feasibility Example.parcels Example.program
         2015 Example.build_all (Example.start (Example.funds 1000000)))
  = Example.start (Example.funds 1000000).
Proof.
  apply (allocator_without_losing_proposal_changes_nothing
           unit Scenario.profitable_feasibility Example.parcels
           Example.program 2015 Example.build_all
           (Example.start (Example.funds 1000000))).
  intros r Hr. vm_compute in Hr.
  destruct Hr as [<- | [<- | [<- | []]]]; vm_compute; reflexivity.
Defined.

Lemma missing_column_witness :
  exists e,
    run_subsidized_developer
      Scenario.bare_feasibility Example.parcels Example.program 2015
      Example.build_all (Example.start (Example.funds 1000000))
    = (Err e, Example.start (Example.funds 1000000))
    /\ (has_column Scenario.bare_feasibility "max_profit" = false ->
        e = AttributeError "max_profit").
Proof.
  apply (allocator_raises_on_missing_column
           unit Scenario.bare_feasibility Example.parcels Example.program
           2015 Example.build_all (Example.start (Example.funds 1000000))).
  left. reflexivity.
Defined.

Lemma unknown_name_witness :
  exists e,
    run_subsidized_developer
      Example.feasibility Example.parcels Scenario.district_program 2015
      Example.build_all (Example.start (Example.funds 1000000))
    = (Err e, Example.start (Example.funds 1000000)).
Proof.
  apply (allocator_raises_on_unknown_name
           unit Example.feasibility Example.parcels
           Scenario.district_program 2015 Example.build_all
           (Example.start (Example.funds 1000000)) "tpp_id").
  - reflexivity.
  - intros [H | [H | [H | []]]]; discriminate.
  - left. exists Example.in_district. split; [reflexivity|].
    vm_compute. left. reflexivity.
Defined.


Lemma build_none_builds_nothing : builds_nothing Example.build_none.
Proof. intros w call year. exact I. Defined.

Lemma unbuilt_candidates_witness :
  let res := run_subsidized_developer
               Example.feasibility Example.parcels Example.program 2015
               Example.build_none
               (Example.start (Example.funds 1000000)) in
  fst res = Ok tt
  /\ account (snd res) = account (Example.start (Example.funds 1000000))
  /\ summary (snd res) = summary (Example.start (Example.funds 1000000)).
Proof.
  apply (unbuilt_candidates_cost_nothing
           unit Example.feasibility Example.parcels Example.candidate_table
           Example.program 2015 Example.build_none
           (Example.start (Example.funds 1000000))).
  - vm_compute. reflexivity.
  - exact build_none_builds_nothing.
Defined.

Lemma only_expenditures_witness :
  Forall (expenditure 2015)
         (booked_in_run
            (Example.start (Example.funds 1000000))
            (snd (run_subsidized_developer
                    Example.feasibility Example.parcels Example.program
                    2015 Example.build_all
                    (Example.start (Example.funds 1000000))))).
Proof.
  apply (allocator_books_only_expenditures
           unit Example.feasibility Example.parcels Example.program 2015
           Example.build_all (Example.start (Example.funds 1000000))).
  exact build_all_builds_from_candidates.
Defined.


Lemma receiving_filter_witness :
  beval (nth 0 (rows Scenario.zoned_selected) Example.no_row)
        Scenario.in_zone_1 = true.
Proof.
  apply (built_candidates_pass_receiving_filter
           unit Example.feasibility Example.parcels Scenario.zoned_program
           2015 Example.build_all (Example.start (Example.funds 1000000))
           Scenario.in_zone_1
           (mkFormFrame "residential" Scenario.zoned_selected)).
  - reflexivity.
  - intros H; simpl in H;
      repeat (destruct H as [H | H]; [discriminate|]); exact H.
  - intros H; simpl in H;
      repeat (destruct H as [H | H]; [discriminate|]); exact H.
  - vm_compute. left. reflexivity.
  - vm_compute. left. reflexivity.
Defined.

Lemma have_their_data_witness :
  exists r0 p,
    In r0 (rows Example.feasibility)
    /\ idx r0 = idx (nth 0 (rows Example.selected) Example.no_row)
    /\ is_finite (cell r0 "residential_sqft") = true
    /\ is_finite (cell r0 "total_residential_units") = true
    /\ In p (rows Example.parcels)
    /\ idx p = idx (nth 0 (rows Example.selected) Example.no_row)
    /\ cell (nth 0 (rows Example.selected) Example.no_row)
            "ave_sqft_per_unit" <> NaN.
Proof.
  apply (built_candidates_have_their_data
           unit Example.feasibility Example.parcels Example.program 2015
           Example.build_all (Example.start (Example.funds 1000000))
           (mkFormFrame "residential" Example.selected)).
  - vm_compute. left. reflexivity.
  - vm_compute. left. reflexivity.
Defined.

Lemma owe_no_vmt_fee_witness :
  let s' := snd (run_subsidized_developer
                   Example.feasibility Example.parcels Example.program 2015
                   Example.build_all Scenario.funded_with_output) in
  fee_base 2015 5 (summary s')
  = fee_base 2015 5 (summary Scenario.funded_with_output)
  /\ calculate_vmt_fees (Example.tax_settings Example.has_units) 2015
                        (summary s') 5 coffer
     = calculate_vmt_fees (Example.tax_settings Example.has_units) 2015
                          (summary Scenario.funded_with_output) 5 coffer.
Proof.
  apply (subsidized_buildings_owe_no_vmt_fee
           unit Example.feasibility Example.parcels Example.program 2015
           Example.build_all Scenario.funded_with_output
           (Example.tax_settings Example.has_units) 2015 5 coffer);
    reflexivity.
Defined.
